(** * dashboard/dashboard_builder.py: the result holder of the compatibility grid

    A shallow embedding of [_ResultHolder] (the classification engine behind
    the dashboard) and the properties of its queries [get_result],
    [has_issues], [has_deprecated_deps] and [get_statistics].

    Python dictionaries whose iteration order is observable
    ([_package_to_results], iterated by [has_issues]) are association lists in
    insertion order; dictionaries that are only looked up are [gmap]s; the
    [frozenset] key of a pair is a [gset].  A [KeyError] is an explicit error
    result, threaded through a small exception monad. *)

From Stdlib Require Import String Ascii ZArith List Bool Lia Permutation.
From stdpp Require Import base option list gmap strings.

Local Open Scope string_scope.
Local Open Scope Z_scope.
Local Open Scope list_scope.

(** ** Data model *)

(** Modelled from the spec: the class [package.Package] is declared outside
    this file; a package is an installable unit identified by its install
    name, and is compared and hashed by it. *)
Record Package : Type := mkPackage { install_name : string }.

#[global] Instance Package_eq_dec : EqDecision Package.
Proof. solve_decision. Defined.

#[global] Instance Package_countable : Countable Package :=
  inj_countable' install_name mkPackage
    (fun p => match p with mkPackage _ => eq_refl end).

(** Modelled from the spec: the enumeration [compatibility_store.Status] is
    declared outside this file; its members are the ones the data model lists,
    and the value of a member is its own name (the docstring of [get_result]:
    a "compatibility_store.Status.value e.g. SUCCESS"). *)
Inductive Status : Type :=
| UNKNOWN
| SUCCESS
| INSTALL_ERROR
| CHECK_WARNING
| UNKNOWN_ERROR.

#[global] Instance Status_eq_dec : EqDecision Status.
Proof. solve_decision. Defined.

Module Status_.
Definition name (s : Status) : string :=
  match s with
  | UNKNOWN => "UNKNOWN"
  | SUCCESS => "SUCCESS"
  | INSTALL_ERROR => "INSTALL_ERROR"
  | CHECK_WARNING => "CHECK_WARNING"
  | UNKNOWN_ERROR => "UNKNOWN_ERROR"
  end.

Definition value (s : Status) : string := name s.
End Status_.

(** Modelled from the spec: the class
    [compatibility_store.CompatibilityResult] is declared outside this file;
    these are the four attributes the holder reads.  [details] may be
    [None]. *)
Record CompatibilityResult : Type := mkCompatibilityResult {
  packages : list Package;
  status : Status;
  details : option string;
  python_major_version : Z
}.

(** [str.lower], on the characters of the status values. *)
Definition lower_ascii (c : ascii) : ascii :=
  let n := nat_of_ascii c in
  if ((65 <=? n) && (n <=? 90))%nat then ascii_of_nat (n + 32) else c.

Fixpoint lower (s : string) : string :=
  match s with
  | EmptyString => EmptyString
  | String c rest => String (lower_ascii c) (lower rest)
  end.

(** [str.endswith]. *)
Definition endswith (s suffix : string) : bool :=
  let n := String.length s in
  let k := String.length suffix in
  ((k <=? n)%nat && String.eqb (substring (n - k) k s) suffix)%bool.

(** One entry of a check list: the dictionary
    [{'status': ..., 'self': ..., 'details': ...}].  The key ['details'] is
    absent from the synthetic entries, which is [entry_details = None]; a
    present key holding [None] is [Some None].  Equality of entries is then
    equality of the dictionaries. *)
Record Entry : Type := mkEntry {
  entry_status : string;
  entry_self : bool;
  entry_details : option (option string)
}.

#[global] Instance Entry_eq_dec : EqDecision Entry.
Proof. solve_decision. Defined.

(** The dictionary returned by [get_result]. *)
Record Result : Type := mkResult {
  status_type : string;
  self_compatibility_check : list Entry;
  pairwise_compatibility_check : list Entry
}.

Definition SELF_SUCCESS : Entry :=
  {| entry_status := "SUCCESS"; entry_self := true; entry_details := None |}.

(** ** Exceptions *)

(** The key of a failed dictionary lookup. *)
Inductive Key : Type :=
| PackageKey (p : Package)
| PairKey (s : gset Package)
| NameKey (n : string).

Inductive Exn : Type :=
| KeyError (k : Key).

Inductive Outcome (A : Type) : Type :=
| Return (a : A)
| Raise (e : Exn).

Arguments Return {A} a.
Arguments Raise {A} e.

#[global] Instance Outcome_ret : MRet Outcome := fun _ a => Return a.
#[global] Instance Outcome_bind : MBind Outcome := fun _ _ f m =>
  match m with
  | Return a => f a
  | Raise e => Raise e
  end.

Definition raises {A} (m : Outcome A) : Prop :=
  match m with Return _ => False | Raise _ => True end.

Definition returns {A} (m : Outcome A) : Prop :=
  match m with Return _ => True | Raise _ => False end.

(** ** Dictionaries *)

(** A dictionary in insertion order; [d[k]] is the first binding of [k]. *)
Fixpoint dict_get {V} (d : list (Package * V)) (k : Package) : option V :=
  match d with
  | [] => None
  | (k', v) :: rest => if decide (k' = k) then Some v else dict_get rest k
  end.

Definition keys {V} (d : list (Package * V)) : list Package := map fst d.

(** Truth value of a list: empty lists are false. *)
Definition truthy {A} (l : list A) : bool :=
  match l with [] => false | _ => true end.

(** [list.append]. *)
Definition append {A} (l : list A) (x : A) : list A := l ++ [x].

(** ** The result holder *)

(** [deprecated_deps] is computed by the constructor from what the
    deprecated-dependency finder yields for [checker] and [store]. *)
Record _ResultHolder : Type := mk_ResultHolder {
  _package_to_results : list (Package * list CompatibilityResult);
  _pairwise_to_results : gmap (gset Package) (list CompatibilityResult);
  deprecated_deps : gmap string (list string * bool)
}.

(** [get_deprecated_deps]: every item the finder yields is a tuple whose
    component 0 is the pair [(pkg_name, deps)], the only component read. *)
Definition get_deprecated_deps (finder_items : list (string * list string))
  : gmap string (list string * bool) :=
  fold_left
    (fun results item =>
       let '(pkg_name, deps) := item in
       let has_deprecated_deps := truthy deps in
       <[pkg_name := (deps, has_deprecated_deps)]> results)
    finder_items ∅.

(** [_ResultHolder.__init__]. *)
Definition new_ResultHolder
    (package_to_results : list (Package * list CompatibilityResult))
    (pairwise_to_results : gmap (gset Package) (list CompatibilityResult))
    (finder_items : list (string * list string)) : _ResultHolder :=
  {| _package_to_results := package_to_results;
     _pairwise_to_results := pairwise_to_results;
     deprecated_deps := get_deprecated_deps finder_items |}.

(** Modelled from the spec: the configuration module [configs] is outside
    this file.  It holds the package catalogue and, for the Python major
    versions 2 and 3, the install names known not to be supported. *)
Class Configs : Type := {
  PKG_LIST : list string;
  PKG_PY_VERSION_NOT_SUPPORTED : Z → list string
}.

Section Holder.

Context {configs : Configs}.

Definition _is_py_version_incompatible (result : CompatibilityResult) : bool :=
  if decide (status result = INSTALL_ERROR) then
    existsb
      (fun version =>
         existsb
           (fun pkg =>
              let major_version := python_major_version result in
              let name := install_name pkg in
              let unsupported := PKG_PY_VERSION_NOT_SUPPORTED version in
              (major_version =? version) && bool_decide (name ∈ unsupported))
           (packages result))
      [2; 3]
  else false.

Variable self : _ResultHolder.

(** [self._package_to_results[p]]. *)
Definition package_results_of (p : Package) : Outcome (list CompatibilityResult) :=
  match dict_get (_package_to_results self) p with
  | Some l => Return l
  | None => Raise (KeyError (PackageKey p))
  end.

(** [self._pairwise_to_results[frozenset([p1, p2])]]. *)
Definition pairwise_results_of (p1 p2 : Package) : Outcome (list CompatibilityResult) :=
  let key : gset Package := {[p1; p2]} in
  match _pairwise_to_results self !! key with
  | Some l => Return l
  | None => Raise (KeyError (PairKey key))
  end.

(** The entry appended for a reported result. *)
Definition failure_entry (is_self : bool) (pr : CompatibilityResult) : Entry :=
  {| entry_status := Status_.value (status pr);
     entry_self := is_self;
     entry_details := Some (details pr) |}.

(** The test guarding the body of both scans. *)
Definition reported (pr : CompatibilityResult) : bool :=
  negb (_is_py_version_incompatible pr) && negb (bool_decide (status pr = SUCCESS)).

(** One iteration of a scan ([for pr in ...]) over the accumulated list and
    the status type; [level] is ["self-"] or ["pairwise-"]. *)
Definition scan_step (level : string) (is_self : bool)
    (acc : list Entry * string) (pr : CompatibilityResult) : list Entry * string :=
  let '(entries, status_type) := acc in
  if reported pr then
    (append entries (failure_entry is_self pr),
     level +:+ lower (Status_.value (status pr)))
  else (entries, status_type).

Definition scan (level : string) (is_self : bool)
    (results : list CompatibilityResult) (acc : list Entry * string)
  : list Entry * string :=
  fold_left (scan_step level is_self) results acc.

Definition get_result (package_1 package_2 : Package) : Outcome Result :=
  let self_result : list Entry := [] in
  let pair_result : list Entry := [] in
  let status_type := "self-success" in
  (* [not d[package_1] or not d[package_2]]: the second lookup is evaluated
     only when the first list is not empty. *)
  r1 ← package_results_of package_1;
  no_data ← (if truthy r1
             then r2 ← package_results_of package_2; mret (negb (truthy r2))
             else mret true);
  let '(self_result, status_type) :=
    if (no_data : bool) then
      (append self_result
         {| entry_status := Status_.name UNKNOWN;
            entry_self := true;
            entry_details := None |},
       "self-unknown")
    else (self_result, status_type) in
  r1 ← package_results_of package_1;
  r2 ← package_results_of package_2;
  let package_results := r1 ++ r2 in
  let '(self_result, status_type) :=
    scan "self-" true package_results (self_result, status_type) in
  if decide (package_1 = package_2) then
    let self_result :=
      if truthy self_result then self_result
      else
        append self_result
          {| entry_status := Status_.name SUCCESS;
             entry_self := true;
             entry_details := None |} in
    mret {| status_type := status_type;
            self_compatibility_check := self_result;
            pairwise_compatibility_check := pair_result |}
  else
    pairwise_results ← pairwise_results_of package_1 package_2;
    let '(pair_result, status_type) :=
      if truthy pairwise_results then (pair_result, status_type)
      else
        (append pair_result
           {| entry_status := Status_.name UNKNOWN;
              entry_self := false;
              entry_details := None |},
         "pairwise-unknown") in
    let '(pair_result, status_type) :=
      scan "pairwise-" false pairwise_results (pair_result, status_type) in
    let '(pair_result, status_type) :=
      if truthy pair_result then (pair_result, status_type)
      else
        (append pair_result
           {| entry_status := Status_.name SUCCESS;
              entry_self := false;
              entry_details := None |},
         (* [status_type is 'self-success']: both occurrences of the literal
            are one constant of the function, and the status type holds that
            constant exactly when it was never assigned to; every value
            assigned to it differs from it as a string, as no reported
            status lowers to "success".  So the identity test is the
            equality test. *)
         if String.eqb status_type "self-success" then "pairwise-success"
         else status_type) in
    mret {| status_type := status_type;
            self_compatibility_check := self_result;
            pairwise_compatibility_check := pair_result |}.

(** The body of the loop of [has_issues] for one [package_2]: [true] when
    the loop returns [True] at this package, [false] when it goes on. *)
Definition has_issues_body (p package_2 : Package) : Outcome bool :=
  p_and_package_2_result ← get_result p package_2;
  let package_2_self_conflict := false in
  package_2_self_res ← get_result package_2 package_2;
  let package_2_self_conflict :=
    if bool_decide (SELF_SUCCESS ∈ self_compatibility_check package_2_self_res)
    then package_2_self_conflict else true in
  let pair_res := pairwise_compatibility_check p_and_package_2_result in
  mret (existsb
          (fun result =>
             negb package_2_self_conflict &&
             negb (String.eqb (entry_status result) "SUCCESS"))
          pair_res).

Fixpoint has_issues_loop (p : Package) (packages_2 : list Package) : Outcome bool :=
  match packages_2 with
  | [] => mret false
  | package_2 :: rest =>
      found ← has_issues_body p package_2;
      if (found : bool) then mret true else has_issues_loop p rest
  end.

Definition has_issues (p : Package) : Outcome bool :=
  has_issues_loop p (keys (_package_to_results self)).

Definition has_deprecated_deps (p : Package) : Outcome bool :=
  match deprecated_deps self !! install_name p with
  | Some entry => mret (snd entry)
  | None => Raise (KeyError (NameKey (install_name p)))
  end.

(** [needs_update] has the body [pass]: it returns [None]. *)
Definition needs_update (p : Package) : option bool := None.

(** Truth value of what [needs_update] returns: [None] is false. *)
Definition truth (v : option bool) : bool :=
  match v with Some b => b | None => false end.

Fixpoint get_statistics_loop (packages : list Package)
    (total_have_conflicts total_have_deprecated_deps total_needs_update : Z)
  : Outcome (Z * Z * Z) :=
  match packages with
  | [] => mret (total_have_conflicts, total_have_deprecated_deps, total_needs_update)
  | pkg :: rest =>
      issues ← has_issues pkg;
      let total_have_conflicts :=
        if (issues : bool) then total_have_conflicts + 1 else total_have_conflicts in
      deprecated ← has_deprecated_deps pkg;
      let total_have_deprecated_deps :=
        if (deprecated : bool) then total_have_deprecated_deps + 1
        else total_have_deprecated_deps in
      let total_needs_update :=
        if truth (needs_update pkg) then total_needs_update + 1
        else total_needs_update in
      get_statistics_loop rest
        total_have_conflicts total_have_deprecated_deps total_needs_update
  end.

Definition get_statistics (packages : list Package) : Outcome (Z * Z * Z * Z) :=
  let total_packages := Z.of_nat (length PKG_LIST) in
  '(total_have_conflicts, total_have_deprecated_deps, total_needs_update) ←
    get_statistics_loop packages 0 0 0;
  mret (total_packages, total_have_conflicts,
        total_have_deprecated_deps, total_needs_update).

(** *** Closed forms of the lists and status types [get_result] builds *)

(** The synthetic entries. *)
Definition unknown_entry (is_self : bool) : Entry :=
  {| entry_status := "UNKNOWN"; entry_self := is_self; entry_details := None |}.

Definition success_entry (is_self : bool) : Entry :=
  {| entry_status := "SUCCESS"; entry_self := is_self; entry_details := None |}.

(** The status type a scan leaves: that of the last reported result. *)
Definition last_status_type (level : string) (results : list CompatibilityResult)
    (before : string) : string :=
  match last (List.filter reported results) with
  | Some pr => level +:+ lower (Status_.value (status pr))
  | None => before
  end.

(** The list of self entries of a query. *)
Definition self_entries (l1 l2 : list CompatibilityResult) : list Entry :=
  (if truthy l1 && truthy l2 then [] else [unknown_entry true]) ++
  map (failure_entry true) (List.filter reported (l1 ++ l2)).

(** The status type after the self scan. *)
Definition self_status_type (l1 l2 : list CompatibilityResult) : string :=
  last_status_type "self-" (l1 ++ l2)
    (if truthy l1 && truthy l2 then "self-success" else "self-unknown").

(** The list of pairwise entries before the synthetic success entry. *)
Definition pair_entries (lp : list CompatibilityResult) : list Entry :=
  (if truthy lp then [] else [unknown_entry false]) ++
  map (failure_entry false) (List.filter reported lp).

(** *** Completeness of the index for a package

    What the lookups behind [has_issues] and [has_deprecated_deps] need to
    succeed for [p]: [p] is indexed, its pair with every other indexed
    package is a key of the pairwise mapping, and the finder has reported
    its install name. *)
Definition complete_for (p : Package) : Prop :=
  p ∈ keys (_package_to_results self) ∧
  (∀ q, q ∈ keys (_package_to_results self) → q ≠ p →
        is_Some (_pairwise_to_results self !! ({[p; q]} : gset Package))) ∧
  is_Some (deprecated_deps self !! install_name p).

End Holder.

(** ** Sample indexes *)

Module Examples.

Definition A : Package := mkPackage "A".
Definition B : Package := mkPackage "B".
Definition C : Package := mkPackage "C".

#[export] Instance sample_configs : Configs := {|
  PKG_LIST := ["A"; "B"; "C"; "tensorflow"];
  PKG_PY_VERSION_NOT_SUPPORTED version :=
    if version =? 2 then ["tensorflow"]
    else if version =? 3 then ["apache-beam[gcp]"]
    else []
|}.

Definition ok (p : Package) : CompatibilityResult :=
  {| packages := [p]; status := SUCCESS; details := None;
     python_major_version := 3 |}.

Definition failed (ps : list Package) (s : Status) (v : Z) : CompatibilityResult :=
  {| packages := ps; status := s; details := Some "log";
     python_major_version := v |}.

(** A has the self results [SUCCESS], B has none, and the pair has none. *)
Definition half_known : _ResultHolder :=
  new_ResultHolder
    [(A, [ok A]); (B, [])]
    {[ ({[A; B]} : gset Package) := [] ]}
    [("A", []); ("B", ["old-dep"])].

Definition half_known_A_B : Result :=
  {| status_type := "pairwise-unknown";
     self_compatibility_check :=
       [ {| entry_status := "UNKNOWN"; entry_self := true;
            entry_details := None |} ];
     pairwise_compatibility_check :=
       [ {| entry_status := "UNKNOWN"; entry_self := false;
            entry_details := None |} ] |}.

(** Both packages are indexed, but neither their pair nor any deprecated
    dependency information is. *)
Definition pairless : _ResultHolder :=
  new_ResultHolder [(A, []); (B, [])] ∅ [].

(** Every self check and the pairwise check succeeded. *)
Definition all_good : _ResultHolder :=
  new_ResultHolder
    [(A, [ok A]); (B, [ok B; ok B])]
    {[ ({[A; B]} : gset Package) :=
         [ {| packages := [A; B]; status := SUCCESS; details := None;
              python_major_version := 3 |} ] ]}
    [("A", []); ("B", [])].

Definition TF : Package := mkPackage "tensorflow".

(** tensorflow fails to install under Python 2, which it does not support,
    alone and with A. *)
Definition py2 : _ResultHolder :=
  new_ResultHolder
    [(A, [ok A]); (TF, [failed [TF] INSTALL_ERROR 2])]
    {[ ({[A; TF]} : gset Package) := [failed [A; TF] INSTALL_ERROR 2] ]}
    [("A", []); ("tensorflow", [])].

(** A has a failure, a success and a warning, in this order; C fails on its
    own and with A and B. *)
Definition mixed : _ResultHolder :=
  new_ResultHolder
    [(A, [failed [A] INSTALL_ERROR 3; ok A; failed [A] CHECK_WARNING 3]);
     (B, [ok B]);
     (C, [failed [C] UNKNOWN_ERROR 3])]
    (<[ ({[A; B]} : gset Package) := [failed [A; B] CHECK_WARNING 3] ]>
     (<[ ({[A; C]} : gset Package) := [failed [A; C] INSTALL_ERROR 3] ]>
      {[ ({[B; C]} : gset Package) := [failed [B; C] INSTALL_ERROR 3] ]}))
    [("A", ["old-dep"]); ("B", []); ("C", [])].

Definition mixed_C_C : Result :=
  {| status_type := "self-unknown_error";
     self_compatibility_check :=
       [ {| entry_status := "UNKNOWN_ERROR"; entry_self := true;
            entry_details := Some (Some "log") |};
         {| entry_status := "UNKNOWN_ERROR"; entry_self := true;
            entry_details := Some (Some "log") |} ];
     pairwise_compatibility_check := [] |}.

(** A carries a warning of its own; B and the pair are clean. *)
Definition self_warned : _ResultHolder :=
  new_ResultHolder
    [(A, [failed [A] CHECK_WARNING 3]); (B, [ok B])]
    {[ ({[A; B]} : gset Package) :=
         [ {| packages := [A; B]; status := SUCCESS; details := None;
              python_major_version := 3 |} ] ]}
    [("A", []); ("B", [])].

(** As [all_good], with further successes and with failures under Python 2
    that involve tensorflow, which does not support it. *)
Definition all_good_more : _ResultHolder :=
  new_ResultHolder
    [(A, [ok A; ok A]); (B, [ok B; failed [B; TF] INSTALL_ERROR 2])]
    {[ ({[A; B]} : gset Package) :=
         [ failed [A; TF] INSTALL_ERROR 2;
           {| packages := [A; B]; status := SUCCESS; details := None;
              python_major_version := 2 |} ] ]}
    [("A", []); ("B", [])].

End Examples.

(** ** Notions used to state further properties *)

(** The last item the finder yielded for a name. *)
Definition last_item_for (name : string) (items : list (string * list string))
  : option (string * list string) :=
  last (List.filter (fun item => String.eqb (fst item) name) items).

(** An outcome that is the value [True]. *)
Definition is_True (m : Outcome bool) : bool :=
  match m with
  | Return true => true
  | _ => false
  end.

Section Findings.

Context {configs : Configs}.

(** What the scans report of a list: the status and the details of every
    reported result, in the order of the list. *)
Definition findings (results : list CompatibilityResult)
  : list (Status * option string) :=
  map (fun pr => (status pr, details pr)) (List.filter reported results).

(** The exclusion rule in the words of its statement: the status is
    INSTALL_ERROR and, for a version 2 or 3 equal to the recorded major
    version, the install name of a package of the result is in that
    version's not-supported list.  To be compared with
    [_is_py_version_incompatible]. *)
Definition py_version_not_supported (pr : CompatibilityResult) : Prop :=
  status pr = INSTALL_ERROR ∧
  ∃ version, (version = 2 ∨ version = 3) ∧
    python_major_version pr = version ∧
    ∃ pkg, pkg ∈ packages pr ∧
           install_name pkg ∈ PKG_PY_VERSION_NOT_SUPPORTED version.

(** Two lists that are empty together and have the same findings. *)
Definition same_findings (l l' : list CompatibilityResult) : Prop :=
  truthy l = truthy l' ∧ findings l = findings l'.

End Findings.

(** Case analysis on a membership in a list written out. *)
Ltac each_member H :=
  cbn in H;
  repeat (apply elem_of_cons in H as [-> | H]);
  [.. | by apply elem_of_nil in H].

(** ** Facts about the scans and the lookups *)

Section Facts.

Context {configs : Configs}.
Variable self : _ResultHolder.

Local Abbreviation self_results := (dict_get (_package_to_results self)).
Local Abbreviation pair_results :=
  (fun p1 p2 => _pairwise_to_results self !! ({[p1; p2]} : gset Package)).

Lemma scan_spec level is_self results entries status_type :
  scan level is_self results (entries, status_type) =
  (entries ++ map (failure_entry is_self) (List.filter reported results),
   last_status_type level results status_type).
Proof.
  unfold scan, last_status_type.
  revert entries status_type.
  induction results as [|pr results IH]; intros entries status_type; simpl.
  - by rewrite app_nil_r.
  - destruct (reported pr) eqn:Hpr; simpl; rewrite IH.
    + unfold append. rewrite <- app_assoc. simpl. f_equal.
      rewrite last_cons. by destruct (last (List.filter reported results)).
    + done.
Qed.

Lemma filter_reported_app l1 l2 :
  List.filter reported (l1 ++ l2) = List.filter reported l1 ++ List.filter reported l2.
Proof. apply List.filter_app. Qed.

Lemma keys_dict_get {V} (d : list (Package * V)) (p : Package) :
  p ∈ keys d ↔ is_Some (dict_get d p).
Proof.
  induction d as [|[k v] d IH]; simpl.
  - split; [intros H; inversion H | intros [? H]; discriminate].
  - rewrite elem_of_cons, IH. destruct (decide (k = p)) as [->|Hne].
    + split; eauto.
    + split; [intros [?|?]; [congruence | done] | by right].
Qed.

Lemma package_results_of_Some p l :
  self_results p = Some l → package_results_of self p = Return l.
Proof. unfold package_results_of. by intros ->. Qed.

Lemma package_results_of_None p :
  self_results p = None → package_results_of self p = Raise (KeyError (PackageKey p)).
Proof. unfold package_results_of. by intros ->. Qed.

Lemma truthy_nil {A} (l : list A) : truthy l = false ↔ l = [].
Proof. by destruct l. Qed.

Lemma if_truthy_append {A} (l : list A) (x : A) :
  (if truthy l then l else append l x) = (if truthy l then l else [x]).
Proof. by destruct l. Qed.

Local Opaque scan.

(** [get_result(p, p)] in closed form. *)
Lemma get_result_same p l :
  self_results p = Some l →
  get_result self p p =
  Return {| status_type := self_status_type l l;
            self_compatibility_check :=
              if truthy (self_entries l l) then self_entries l l
              else [success_entry true];
            pairwise_compatibility_check := [] |}.
Proof.
  intros Hl. unfold get_result.
  rewrite (package_results_of_Some _ _ Hl). simpl.
  unfold self_status_type, self_entries.
  destruct l as [|r l]; simpl; rewrite scan_spec, decide_True by done.
  - done.
  - rewrite app_nil_l. by rewrite (if_truthy_append _ (success_entry true)).
Qed.

(** [get_result(p1, p2)] for distinct packages, in closed form. *)
Lemma get_result_distinct p1 p2 l1 l2 lp :
  p1 ≠ p2 →
  self_results p1 = Some l1 →
  self_results p2 = Some l2 →
  pair_results p1 p2 = Some lp →
  get_result self p1 p2 =
  Return {| status_type :=
              (let st := last_status_type "pairwise-" lp
                           (if truthy lp then self_status_type l1 l2
                            else "pairwise-unknown") in
               if truthy (pair_entries lp) then st
               else if String.eqb st "self-success" then "pairwise-success" else st);
            self_compatibility_check := self_entries l1 l2;
            pairwise_compatibility_check :=
              if truthy (pair_entries lp) then pair_entries lp
              else [success_entry false] |}.
Proof.
  intros Hne H1 H2 Hp. unfold get_result.
  rewrite (package_results_of_Some _ _ H1), (package_results_of_Some _ _ H2).
  unfold pairwise_results_of. rewrite Hp.
  unfold self_status_type, self_entries, pair_entries.
  assert (Hif : ∀ (l : list Entry) (st : string),
    (let '(pair_result, status_type) :=
       if truthy l then (l, st)
       else (append l (success_entry false),
             if String.eqb st "self-success" then "pairwise-success" else st) in
     mret (M := Outcome)
          {| status_type := status_type;
             self_compatibility_check := self_entries l1 l2;
             pairwise_compatibility_check := pair_result |}) =
    Return {| status_type :=
                if truthy l then st
                else if String.eqb st "self-success" then "pairwise-success" else st;
              self_compatibility_check := self_entries l1 l2;
              pairwise_compatibility_check :=
                if truthy l then l else [success_entry false] |}).
  { intros [|e l] st; done. }
  unfold self_status_type, pair_entries.
  destruct l1 as [|r1 l1], l2 as [|r2 l2]; simpl;
    rewrite scan_spec, decide_False by done; simpl;
    destruct lp as [|rp lp]; simpl; rewrite scan_spec; apply Hif.
Qed.

(** Which lookup fails first. *)
Lemma get_result_missing_1 p1 p2 :
  self_results p1 = None →
  get_result self p1 p2 = Raise (KeyError (PackageKey p1)).
Proof. intros H. unfold get_result. by rewrite (package_results_of_None _ H). Qed.

Lemma get_result_missing_2 p1 p2 l1 :
  self_results p1 = Some l1 →
  self_results p2 = None →
  get_result self p1 p2 = Raise (KeyError (PackageKey p2)).
Proof.
  intros H1 H2. unfold get_result.
  rewrite (package_results_of_Some _ _ H1), (package_results_of_None _ H2).
  by destruct l1.
Qed.

Lemma get_result_missing_pair p1 p2 l1 l2 :
  p1 ≠ p2 →
  self_results p1 = Some l1 →
  self_results p2 = Some l2 →
  pair_results p1 p2 = None →
  get_result self p1 p2 = Raise (KeyError (PairKey {[p1; p2]})).
Proof.
  intros Hne H1 H2 Hp. unfold get_result.
  rewrite (package_results_of_Some _ _ H1), (package_results_of_Some _ _ H2).
  unfold pairwise_results_of. rewrite Hp.
  destruct l1, l2; simpl; by rewrite scan_spec, decide_False by done.
Qed.

Local Transparent scan.

(** A query that returns has found every list it looks up. *)
Lemma get_result_Return_inv p1 p2 res :
  get_result self p1 p2 = Return res →
  ∃ l1 l2, self_results p1 = Some l1 ∧ self_results p2 = Some l2 ∧
           (p1 ≠ p2 → ∃ lp, pair_results p1 p2 = Some lp).
Proof.
  intros Hres.
  destruct (self_results p1) as [l1|] eqn:H1;
    [|by rewrite (get_result_missing_1 _ p2 H1) in Hres].
  destruct (self_results p2) as [l2|] eqn:H2;
    [|by rewrite (get_result_missing_2 _ _ _ H1 H2) in Hres].
  exists l1, l2. split_and!; [done..|]. intros Hne.
  destruct (pair_results p1 p2) as [lp|] eqn:Hp; [by eauto|].
  by rewrite (get_result_missing_pair _ _ _ _ Hne H1 H2 Hp) in Hres.
Qed.

(** Results of status SUCCESS are never reported. *)
Lemma reported_not_SUCCESS pr : reported pr = true → status pr ≠ SUCCESS.
Proof.
  unfold reported. rewrite andb_true_iff, !negb_true_iff, bool_decide_eq_false.
  tauto.
Qed.

Lemma filter_reported_all_SUCCESS l :
  Forall (λ pr, status pr = SUCCESS) l → List.filter reported l = [].
Proof.
  induction 1 as [|pr l Hpr _ IH]; simpl; [done|].
  destruct (reported pr) eqn:Hc; [|done].
  by apply reported_not_SUCCESS in Hc.
Qed.

Lemma last_filter_reported pr l :
  last (List.filter reported l) = Some pr → pr ∈ l ∧ reported pr = true.
Proof.
  intros H%last_Some_elem_of%list_elem_of_In%filter_In.
  by rewrite <- list_elem_of_In in H.
Qed.

(** No reported status gives a status type that ends in "-success". *)
Lemma reported_status_type_not_success level s :
  level = "self-" ∨ level = "pairwise-" →
  s ≠ SUCCESS →
  endswith (level +:+ lower (Status_.value s)) "-success" = false.
Proof. intros [-> | ->] Hs; by destruct s. Qed.

(** ** The self classification [get_result(p, p)] *)

(** C3: a package whose self-result list is not empty and holds only results
    of status SUCCESS is classified, against itself, with exactly one self
    entry, of status SUCCESS and [self = True], and the status type
    "self-success". *)
Theorem get_result_self_all_success p l :
  dict_get (_package_to_results self) p = Some l →
  l ≠ [] →
  Forall (λ pr, status pr = SUCCESS) l →
  get_result self p p =
  Return {| status_type := "self-success";
            self_compatibility_check :=
              [ {| entry_status := "SUCCESS"; entry_self := true;
                   entry_details := None |} ];
            pairwise_compatibility_check := [] |}.
Proof.
  intros Hl Hne Hall. rewrite (get_result_same _ _ Hl).
  assert (Hnone : List.filter reported (l ++ l) = []).
  { apply filter_reported_all_SUCCESS, Forall_app; done. }
  unfold self_status_type, last_status_type, self_entries.
  rewrite Hnone. destruct l; done.
Qed.

(** C4: a package whose self-result list is empty is classified, against
    itself, with the self entry of status UNKNOWN and [self = True], and the
    status type "self-unknown", whatever else the index holds. *)
Theorem get_result_self_no_results p :
  dict_get (_package_to_results self) p = Some [] →
  get_result self p p =
  Return {| status_type := "self-unknown";
            self_compatibility_check :=
              [ {| entry_status := "UNKNOWN"; entry_self := true;
                   entry_details := None |} ];
            pairwise_compatibility_check := [] |}.
Proof. intros Hl. by rewrite (get_result_same _ _ Hl). Qed.

(** C6: in [get_result(p, p)], when the self-result list holds a reported
    result (not excluded, status not SUCCESS), the status type is "self-"
    followed by the lowercased status value of the last reported result of
    the list: the last one scanned wins, whatever the statuses before it. *)
Theorem get_result_self_last_wins p l pr :
  dict_get (_package_to_results self) p = Some l →
  last (List.filter reported l) = Some pr →
  ∃ res, get_result self p p = Return res ∧
         status_type res = "self-" +:+ lower (Status_.value (status pr)).
Proof.
  intros Hl Hlast. eexists. split; [by apply get_result_same|]. simpl.
  unfold self_status_type, last_status_type.
  by rewrite filter_reported_app, last_app, Hlast.
Qed.

(** ** The exclusion rule *)

(** [_is_py_version_incompatible] decides the exclusion rule. *)
Lemma is_py_version_incompatible_iff pr :
  _is_py_version_incompatible pr = true ↔ py_version_not_supported pr.
Proof.
  unfold _is_py_version_incompatible, py_version_not_supported.
  destruct (decide (status pr = INSTALL_ERROR)) as [Hs|Hs].
  - rewrite existsb_exists. split.
    + intros (version & Hv & Hex). apply existsb_exists in Hex.
      destruct Hex as (pkg & Hpkg & Hok).
      apply andb_true_iff in Hok as [Hmaj%Z.eqb_eq Hin%bool_decide_eq_true].
      split; [done|]. exists version. split_and!.
      * simpl in Hv. intuition.
      * done.
      * exists pkg. by rewrite list_elem_of_In.
    + intros (_ & version & Hv & Hmaj & pkg & Hpkg & Hin).
      exists version. split; [simpl; intuition|].
      apply existsb_exists. exists pkg. split; [by apply list_elem_of_In|].
      apply andb_true_iff. split; [by apply Z.eqb_eq | by apply bool_decide_eq_true].
  - split; [done | by intros [? _]].
Qed.

(** The results a scan passes over are those of status SUCCESS and those
    the rule excludes. *)
Lemma not_reported_iff pr :
  reported pr = false ↔ status pr = SUCCESS ∨ py_version_not_supported pr.
Proof.
  rewrite <- is_py_version_incompatible_iff. unfold reported.
  destruct (_is_py_version_incompatible pr); simpl.
  - split; [by right | done].
  - rewrite negb_false_iff, bool_decide_eq_true. split; [by left|].
    by intros [? | ?].
Qed.

Lemma reported_iff pr :
  reported pr = true ↔ ¬ (status pr = SUCCESS ∨ py_version_not_supported pr).
Proof. rewrite <- not_reported_iff. by destruct (reported pr). Qed.

(** Scanning one more result is one more iteration of the loop. *)
Lemma scan_snoc level is_self before pr acc :
  scan level is_self (before ++ [pr]) acc =
  scan_step level is_self (scan level is_self before acc) pr.
Proof. unfold scan. by rewrite fold_left_app. Qed.

Lemma failure_entry_in_self_entries l1 l2 pr :
  pr ∈ l1 ++ l2 → reported pr = true →
  failure_entry true pr ∈ self_entries l1 l2.
Proof.
  intros Hin Hrep. unfold self_entries. apply elem_of_app. right.
  apply list_elem_of_In, in_map, filter_In. by rewrite <- list_elem_of_In.
Qed.

Lemma self_entries_with_details l1 l2 e :
  e ∈ self_entries l1 l2 → entry_details e ≠ None →
  ∃ pr, pr ∈ l1 ++ l2 ∧ reported pr = true ∧ e = failure_entry true pr.
Proof.
  unfold self_entries. rewrite elem_of_app. intros [Hpre | Hfail] Hdet.
  - destruct (truthy l1 && truthy l2); [by apply elem_of_nil in Hpre|].
    apply list_elem_of_singleton in Hpre. by subst e.
  - apply list_elem_of_In, in_map_iff in Hfail as (pr & <- & [Hin Hrep]%filter_In).
    exists pr. by rewrite list_elem_of_In.
Qed.

Lemma failure_entry_in_pair_entries lp pr :
  pr ∈ lp → reported pr = true → failure_entry false pr ∈ pair_entries lp.
Proof.
  intros Hin Hrep. unfold pair_entries. apply elem_of_app. right.
  apply list_elem_of_In, in_map, filter_In. by rewrite <- list_elem_of_In.
Qed.

Lemma pair_entries_with_details lp e :
  e ∈ pair_entries lp → entry_details e ≠ None →
  ∃ pr, pr ∈ lp ∧ reported pr = true ∧ e = failure_entry false pr.
Proof.
  unfold pair_entries. rewrite elem_of_app. intros [Hpre | Hfail] Hdet.
  - destruct (truthy lp); [by apply elem_of_nil in Hpre|].
    apply list_elem_of_singleton in Hpre. by subst e.
  - apply list_elem_of_In, in_map_iff in Hfail as (pr & <- & [Hin Hrep]%filter_In).
    exists pr. by rewrite list_elem_of_In.
Qed.

(** C2, as the code has it.  A result scanned by [get_result], in the self
    scan or in the pairwise scan, appends no entry and leaves the status
    type as it is if and only if its status is SUCCESS, or its status is
    INSTALL_ERROR and, for a version 2 or 3 equal to its recorded major
    version, the install name of one of its packages is in that version's
    not-supported list; any other result appends its entry and sets the
    status type.  The check lists [get_result] returns are what these scans
    leave: a result of the scanned lists that is neither of status SUCCESS
    nor excluded has its entry in the list, and every entry with details
    comes from such a result.  In particular, an INSTALL_ERROR self result
    of major version 2 on a package of the version-2 list is passed over
    although its status is not SUCCESS, and a package with that single self
    result is classified "self-success". *)
Theorem scanned_result_skipped_iff :
  (∀ pr level is_self before acc,
     scan level is_self (before ++ [pr]) acc = scan level is_self before acc ↔
     status pr = SUCCESS ∨ py_version_not_supported pr) ∧
  (∀ pr level is_self before acc,
     ¬ (status pr = SUCCESS ∨ py_version_not_supported pr) →
     scan level is_self (before ++ [pr]) acc =
     ((scan level is_self before acc).1 ++ [failure_entry is_self pr],
      level +:+ lower (Status_.value (status pr)))) ∧
  (∀ p1 p2 l1 l2 res,
     dict_get (_package_to_results self) p1 = Some l1 →
     dict_get (_package_to_results self) p2 = Some l2 →
     get_result self p1 p2 = Return res →
     (let scanned :=
        (scan "self-" true (l1 ++ l2)
           (if truthy l1 && truthy l2 then ([], "self-success")
            else ([unknown_entry true], "self-unknown"))).1 in
      self_compatibility_check res =
      if decide (p1 = p2)
      then (if truthy scanned then scanned else [success_entry true])
      else scanned) ∧
     (∀ pr, pr ∈ l1 ++ l2 →
            ¬ (status pr = SUCCESS ∨ py_version_not_supported pr) →
            failure_entry true pr ∈ self_compatibility_check res) ∧
     (∀ e, e ∈ self_compatibility_check res → entry_details e ≠ None →
           ∃ pr, pr ∈ l1 ++ l2 ∧
                 ¬ (status pr = SUCCESS ∨ py_version_not_supported pr) ∧
                 e = failure_entry true pr)) ∧
  (∀ p1 p2 lp res,
     p1 ≠ p2 →
     _pairwise_to_results self !! ({[p1; p2]} : gset Package) = Some lp →
     get_result self p1 p2 = Return res →
     (∀ status_type,
        let scanned :=
          (scan "pairwise-" false lp
             (if truthy lp then ([], status_type)
              else ([unknown_entry false], "pairwise-unknown"))).1 in
        pairwise_compatibility_check res =
        if truthy scanned then scanned else [success_entry false]) ∧
     (∀ pr, pr ∈ lp →
            ¬ (status pr = SUCCESS ∨ py_version_not_supported pr) →
            failure_entry false pr ∈ pairwise_compatibility_check res) ∧
     (∀ e, e ∈ pairwise_compatibility_check res → entry_details e ≠ None →
           ∃ pr, pr ∈ lp ∧
                 ¬ (status pr = SUCCESS ∨ py_version_not_supported pr) ∧
                 e = failure_entry false pr)) ∧
  (∀ pr pkg,
     status pr = INSTALL_ERROR → python_major_version pr = 2 →
     pkg ∈ packages pr → install_name pkg ∈ PKG_PY_VERSION_NOT_SUPPORTED 2 →
     status pr ≠ SUCCESS ∧
     (∀ level is_self before acc,
        scan level is_self (before ++ [pr]) acc = scan level is_self before acc) ∧
     (∀ p, dict_get (_package_to_results self) p = Some [pr] →
           get_result self p p =
           Return {| status_type := "self-success";
                     self_compatibility_check := [SELF_SUCCESS];
                     pairwise_compatibility_check := [] |})).
Proof.
  assert (Hskip : ∀ pr level is_self before acc,
    scan level is_self (before ++ [pr]) acc = scan level is_self before acc ↔
    status pr = SUCCESS ∨ py_version_not_supported pr).
  { intros pr level is_self before acc. rewrite scan_snoc, <- not_reported_iff.
    destruct (scan level is_self before acc) as [entries status_type].
    unfold scan_step. destruct (reported pr); [|done].
    split; [|done]. intros [= Hentries _]. unfold append in Hentries.
    apply (f_equal length) in Hentries. rewrite length_app in Hentries.
    simpl in Hentries. lia. }
  split_and!.
  - exact Hskip.
  - intros pr level is_self before acc Hrep%reported_iff. rewrite scan_snoc.
    destruct (scan level is_self before acc) as [entries status_type].
    unfold scan_step. by rewrite Hrep.
  - intros p1 p2 l1 l2 res H1 H2 Hres.
    assert (Hscan : (scan "self-" true (l1 ++ l2)
              (if truthy l1 && truthy l2 then ([], "self-success")
               else ([unknown_entry true], "self-unknown"))).1 =
            self_entries l1 l2).
    { unfold self_entries. by destruct (truthy l1 && truthy l2); rewrite scan_spec. }
    assert (Hself : self_compatibility_check res =
              if decide (p1 = p2)
              then (if truthy (self_entries l1 l2) then self_entries l1 l2
                    else [success_entry true])
              else self_entries l1 l2).
    { destruct (decide (p1 = p2)) as [<-|Hne].
      - assert (l2 = l1) as -> by congruence.
        rewrite (get_result_same _ _ H1) in Hres. by injection Hres as <-.
      - destruct (get_result_Return_inv _ _ _ Hres) as (_ & _ & _ & _ & Hpair).
        destruct (Hpair Hne) as [lp Hp].
        rewrite (get_result_distinct _ _ _ _ _ Hne H1 H2 Hp) in Hres.
        by injection Hres as <-. }
    split_and!.
    + simpl. by rewrite Hscan.
    + intros pr Hin Hrep%reported_iff. rewrite Hself.
      pose proof (failure_entry_in_self_entries l1 l2 pr Hin Hrep) as He.
      destruct (decide (p1 = p2)); [|done].
      destruct (truthy (self_entries l1 l2)) eqn:Ht; [done|].
      apply truthy_nil in Ht. rewrite Ht in He. by apply elem_of_nil in He.
    + intros e He Hdet. rewrite Hself in He.
      assert (He' : e ∈ self_entries l1 l2).
      { destruct (decide (p1 = p2)); [|done].
        destruct (truthy (self_entries l1 l2)); [done|].
        apply list_elem_of_singleton in He. by subst e. }
      destruct (self_entries_with_details l1 l2 e He' Hdet) as (pr & Hin & Hrep & ->).
      exists pr. by rewrite <- reported_iff.
  - intros p1 p2 lp res Hne Hp Hres.
    destruct (get_result_Return_inv _ _ _ Hres) as (l1 & l2 & H1 & H2 & _).
    rewrite (get_result_distinct _ _ _ _ _ Hne H1 H2 Hp) in Hres.
    injection Hres as <-. simpl.
    split_and!.
    + intros status_type.
      assert ((scan "pairwise-" false lp
                 (if truthy lp then ([], status_type)
                  else ([unknown_entry false], "pairwise-unknown"))).1 =
              pair_entries lp) as ->; [|done].
      unfold pair_entries. by destruct (truthy lp); rewrite scan_spec.
    + intros pr Hin Hrep%reported_iff.
      pose proof (failure_entry_in_pair_entries lp pr Hin Hrep) as He.
      destruct (truthy (pair_entries lp)) eqn:Ht; [done|].
      apply truthy_nil in Ht. rewrite Ht in He. by apply elem_of_nil in He.
    + intros e He Hdet.
      assert (He' : e ∈ pair_entries lp).
      { destruct (truthy (pair_entries lp)); [done|].
        apply list_elem_of_singleton in He. by subst e. }
      destruct (pair_entries_with_details lp e He' Hdet) as (pr & Hin & Hrep & ->).
      exists pr. by rewrite <- reported_iff.
  - intros pr pkg Hs Hmaj Hpkg Hin.
    assert (Hrule : py_version_not_supported pr).
    { split; [done|]. exists 2. eauto 6. }
    split_and!.
    + by rewrite Hs.
    + intros level is_self before acc. apply Hskip. by right.
    + intros p Hp. rewrite (get_result_same _ _ Hp).
      assert (Hrep : reported pr = false) by (apply not_reported_iff; by right).
      unfold self_status_type, last_status_type, self_entries. simpl.
      by rewrite Hrep.
Qed.

(** ** The unknown entry of step 1 *)

Lemma unknown_in_self_entries l1 l2 :
  unknown_entry true ∈ self_entries l1 l2 ↔ l1 = [] ∨ l2 = [].
Proof.
  unfold self_entries. rewrite elem_of_app. split.
  - intros [Hpre | Hfail].
    + destruct l1, l2; simpl in Hpre; auto; by apply elem_of_nil in Hpre.
    + apply list_elem_of_In, in_map_iff in Hfail as (pr & Heq & _). discriminate.
  - intros H. left.
    assert (truthy l1 && truthy l2 = false) as ->
      by (destruct H as [-> | ->]; [done | by destruct l1]).
    apply list_elem_of_singleton. done.
Qed.

Lemma unknown_entry_recorded_iff p1 p2 res :
  get_result self p1 p2 = Return res →
  (unknown_entry true ∈ self_compatibility_check res ↔
     self_results p1 = Some [] ∨ self_results p2 = Some []).
Proof.
  intros Hres.
  destruct (get_result_Return_inv _ _ _ Hres) as (l1 & l2 & H1 & H2 & Hpair).
  assert (Hlists : l1 = [] ∨ l2 = [] ↔
                   self_results p1 = Some [] ∨ self_results p2 = Some []).
  { rewrite H1, H2. split; (intros [H|H]; [left|right]); congruence. }
  rewrite <- Hlists, <- unknown_in_self_entries.
  destruct (decide (p1 = p2)) as [<-|Hne].
  - assert (l2 = l1) as -> by congruence.
    rewrite (get_result_same _ _ H1) in Hres. injection Hres as <-. simpl.
    destruct (truthy (self_entries l1 l1)) eqn:Ht; [done|].
    apply truthy_nil in Ht. rewrite Ht. split.
    + intros He%list_elem_of_singleton. discriminate.
    + intros He. by apply elem_of_nil in He.
  - destruct (Hpair Hne) as [lp Hp].
    rewrite (get_result_distinct _ _ _ _ _ Hne H1 H2 Hp) in Hres.
    by injection Hres as <-.
Qed.

(** C1, as the code has it: a query that returns has recorded the self entry
    of status UNKNOWN of step 1 exactly when the self-result list of at least
    one of its two packages is empty.  In particular, when the self results of
    A are one SUCCESS result, those of B are empty and the pair has no
    results, [get_result(A, B)] records that entry and returns the status
    type "pairwise-unknown". *)
Theorem get_result_unknown_entry_iff p1 p2 res :
  get_result self p1 p2 = Return res →
  (unknown_entry true ∈ self_compatibility_check res ↔
     dict_get (_package_to_results self) p1 = Some [] ∨
     dict_get (_package_to_results self) p2 = Some []) ∧
  (∀ pr,
     dict_get (_package_to_results self) p1 = Some [pr] →
     status pr = SUCCESS →
     dict_get (_package_to_results self) p2 = Some [] →
     _pairwise_to_results self !! ({[p1; p2]} : gset Package) = Some [] →
     res = {| status_type := "pairwise-unknown";
              self_compatibility_check := [unknown_entry true];
              pairwise_compatibility_check := [unknown_entry false] |}).
Proof.
  intros Hres. split; [by apply unknown_entry_recorded_iff|].
  intros pr H1' Hs H2' Hp.
  assert (Hne : p1 ≠ p2) by (intros ->; congruence).
  rewrite (get_result_distinct _ _ _ _ _ Hne H1' H2' Hp) in Hres.
  injection Hres as <-.
  unfold self_status_type, last_status_type, self_entries, pair_entries. simpl.
  assert (reported pr = false) as ->; [|done].
  unfold reported. rewrite (bool_decide_eq_true_2 _ Hs). apply andb_false_r.
Qed.

(** ** Symmetry *)

Lemma self_entries_comm l1 l2 : self_entries l1 l2 ≡ₚ self_entries l2 l1.
Proof.
  unfold self_entries. rewrite (andb_comm (truthy l1)).
  apply Permutation_app_head.
  rewrite !filter_reported_app, !map_app. apply Permutation_app_comm.
Qed.

(** C5: for two distinct packages of the index, [get_result(p1, p2)] and
    [get_result(p2, p1)] fail together, on the same missing pair, or return
    together; when they return, their pairwise lists are equal and their self
    lists hold the same entries with the same multiplicities.  They return as
    soon as the pair is a key of the pairwise mapping. *)
Theorem get_result_symmetric p1 p2 :
  p1 ≠ p2 →
  p1 ∈ keys (_package_to_results self) →
  p2 ∈ keys (_package_to_results self) →
  match get_result self p1 p2, get_result self p2 p1 with
  | Return r12, Return r21 =>
      is_Some (_pairwise_to_results self !! ({[p1; p2]} : gset Package)) ∧
      pairwise_compatibility_check r12 = pairwise_compatibility_check r21 ∧
      self_compatibility_check r12 ≡ₚ self_compatibility_check r21
  | Raise e12, Raise e21 =>
      _pairwise_to_results self !! ({[p1; p2]} : gset Package) = None ∧
      e12 = e21
  | _, _ => False
  end.
Proof.
  intros Hne Hk1 Hk2.
  apply keys_dict_get in Hk1 as [l1 H1]. apply keys_dict_get in Hk2 as [l2 H2].
  assert (Hkey : ({[p2; p1]} : gset Package) = {[p1; p2]})
    by apply (comm_L (∪)).
  destruct (pair_results p1 p2) as [lp|] eqn:Hp.
  - rewrite (get_result_distinct _ _ _ _ _ Hne H1 H2 Hp).
    rewrite (get_result_distinct p2 p1 l2 l1 lp) by (by rewrite ?Hkey).
    simpl. split_and!; [by eauto | done | apply self_entries_comm].
  - rewrite (get_result_missing_pair _ _ _ _ Hne H1 H2 Hp).
    rewrite (get_result_missing_pair p2 p1 l2 l1) by (by rewrite ?Hkey).
    by rewrite Hkey.
Qed.

(** ** Issues *)

Lemma pair_success_of_status_type q r res :
  q ≠ r →
  get_result self q r = Return res →
  endswith (status_type res) "-success" = true →
  pairwise_compatibility_check res = [success_entry false].
Proof.
  intros Hne Hres Hend.
  destruct (get_result_Return_inv _ _ _ Hres) as (l1 & l2 & H1 & H2 & Hpair).
  destruct (Hpair Hne) as [lp Hp].
  rewrite (get_result_distinct _ _ _ _ _ Hne H1 H2 Hp) in Hres.
  injection Hres as <-. simpl in *.
  destruct (truthy (pair_entries lp)) eqn:Ht; [exfalso | done].
  unfold last_status_type in Hend.
  destruct (last (List.filter reported lp)) as [pr|] eqn:Hlast.
  - apply last_filter_reported in Hlast as [_ Hc%reported_not_SUCCESS].
    rewrite reported_status_type_not_success in Hend; [done | by right | done].
  - apply last_None in Hlast. unfold pair_entries in Ht.
    rewrite Hlast in Ht. simpl in Ht.
    destruct (truthy lp); [done|]. by vm_compute in Hend.
Qed.

Lemma has_issues_body_same p :
  p ∈ keys (_package_to_results self) → has_issues_body self p p = Return false.
Proof.
  intros [l Hl]%keys_dict_get. unfold has_issues_body.
  by rewrite (get_result_same _ _ Hl).
Qed.

Lemma has_issues_loop_false p ks :
  (∀ q, q ∈ ks → has_issues_body self p q = Return false) →
  has_issues_loop self p ks = Return false.
Proof.
  induction ks as [|q ks IH]; intros Hall; simpl; [done|].
  rewrite (Hall q) by apply list_elem_of_here. simpl.
  apply IH. intros q' Hq'. apply Hall. by apply list_elem_of_further.
Qed.

Lemma has_issues_loop_true p ks :
  has_issues_loop self p ks = Return true →
  ∃ q, q ∈ ks ∧ has_issues_body self p q = Return true.
Proof.
  induction ks as [|q ks IH]; simpl; [done|].
  destruct (has_issues_body self p q) as [[|]|e] eqn:Hq; simpl; [| |done].
  - intros _. exists q. split; [apply list_elem_of_here | done].
  - intros (q' & Hin & Hq')%IH. exists q'. split; [by apply list_elem_of_further | done].
Qed.

Lemma has_issues_body_true p q :
  has_issues_body self p q = Return true →
  ∃ r rq, get_result self p q = Return r ∧ get_result self q q = Return rq ∧
          SELF_SUCCESS ∈ self_compatibility_check rq ∧
          ∃ e, e ∈ pairwise_compatibility_check r ∧ entry_status e ≠ "SUCCESS".
Proof.
  unfold has_issues_body.
  destruct (get_result self p q) as [r|] eqn:Hr; simpl; [|done].
  destruct (get_result self q q) as [rq|] eqn:Hrq; simpl; [|done].
  intros [= (e & Hin & He)%existsb_exists].
  apply andb_true_iff in He as [Hconf Hst].
  exists r, rq. split_and!; [done | done | |].
  - destruct (bool_decide _) eqn:Hd; [by apply bool_decide_eq_true in Hd | done].
  - exists e. split; [by apply list_elem_of_In|].
    apply negb_true_iff in Hst. by apply String.eqb_neq.
Qed.

(** C7: when [q] is in the index and every classification of [q] against
    another package of the index returns a status type that ends in
    "-success", [has_issues(q)] returns [False]. *)
Theorem has_issues_false_when_all_success q :
  q ∈ keys (_package_to_results self) →
  (∀ r, r ∈ keys (_package_to_results self) → r ≠ q →
        ∃ res, get_result self q r = Return res ∧
               endswith (status_type res) "-success" = true) →
  has_issues self q = Return false.
Proof.
  intros Hq Hall. apply has_issues_loop_false. intros r Hr.
  destruct (decide (r = q)) as [->|Hne]; [by apply has_issues_body_same|].
  destruct (Hall r Hr Hne) as (res & Hres & Hend).
  apply keys_dict_get in Hr as [l Hl].
  unfold has_issues_body. rewrite Hres, (get_result_same _ _ Hl). simpl.
  rewrite (pair_success_of_status_type q r res) by done. simpl.
  by rewrite andb_false_r.
Qed.

(** C10: a package [q] whose self classification does not hold the entry
    [SELF_SUCCESS] in its self list is treated as self-conflicted: the loop of
    [has_issues(p)] never returns [True] at [q], whatever the pairwise entries
    between [p] and [q], so that a [True] of [has_issues(p)] comes from
    another package of the index.  A package with an empty self-result list
    is such a [q]: it is classified "self-unknown" and its self list lacks
    [SELF_SUCCESS]. *)
Theorem self_conflicted_package_never_blamed p q :
  (∀ rq, get_result self q q = Return rq →
         SELF_SUCCESS ∉ self_compatibility_check rq →
         has_issues_body self p q ≠ Return true ∧
         (has_issues self p = Return true →
          ∃ q', q' ∈ keys (_package_to_results self) ∧ q' ≠ q ∧
                has_issues_body self p q' = Return true)) ∧
  (dict_get (_package_to_results self) q = Some [] →
   ∃ rq, get_result self q q = Return rq ∧ status_type rq = "self-unknown" ∧
         SELF_SUCCESS ∉ self_compatibility_check rq).
Proof.
  split.
  - intros rq Hrq Hnot.
    assert (Hbody : has_issues_body self p q ≠ Return true).
    { intros (r & rq' & _ & Hrq' & Hin & _)%has_issues_body_true.
      rewrite Hrq in Hrq'. injection Hrq' as <-. done. }
    split; [done|].
    intros (q' & Hin & Hq')%has_issues_loop_true.
    exists q'. split_and!; [done | | done]. intros ->. done.
  - intros Hl. eexists. split; [by apply get_result_same|].
    split; [done|]. simpl. intros He%list_elem_of_singleton. discriminate.
Qed.

(** ** Statistics *)

Lemma get_statistics_loop_bounds packages c d n c' d' n' :
  get_statistics_loop self packages c d n
    = Return (c', d', n') →
  c ≤ c' ≤ c + Z.of_nat (length packages) ∧
  d ≤ d' ≤ d + Z.of_nat (length packages) ∧
  n' = n.
Proof.
  revert c d n. induction packages as [|pkg packages IH]; intros c d n; simpl.
  - intros [= <- <- <-]. lia.
  - destruct (has_issues self pkg) as [issues|]; simpl; [|done].
    destruct (has_deprecated_deps self pkg) as [deprecated|]; simpl; [|done].
    intros H%IH. destruct issues, deprecated; lia.
Qed.

Lemma get_result_returns p1 p2 :
  p1 ∈ keys (_package_to_results self) →
  p2 ∈ keys (_package_to_results self) →
  (p1 ≠ p2 → is_Some (pair_results p1 p2)) →
  returns (get_result self p1 p2).
Proof.
  intros [l1 H1]%keys_dict_get [l2 H2]%keys_dict_get Hp.
  destruct (decide (p1 = p2)) as [<-|Hne].
  - by rewrite (get_result_same _ _ H1).
  - destruct (Hp Hne) as [lp Hlp].
    by rewrite (get_result_distinct _ _ _ _ _ Hne H1 H2 Hlp).
Qed.

Lemma has_issues_loop_returns p ks :
  p ∈ keys (_package_to_results self) →
  (∀ q, q ∈ ks → q ∈ keys (_package_to_results self) ∧
                 (q ≠ p → is_Some (pair_results p q))) →
  returns (has_issues_loop self p ks).
Proof.
  intros Hp. induction ks as [|q ks IH]; intros Hall; simpl; [done|].
  destruct (Hall q (list_elem_of_here _ _)) as [Hq Hpq].
  unfold has_issues_body.
  pose proof (get_result_returns p q Hp Hq) as Hr1.
  pose proof (get_result_returns q q Hq Hq) as Hr2.
  destruct (get_result self p q); [|by destruct Hr1; auto]. simpl.
  destruct (get_result self q q); [|by destruct Hr2]. simpl.
  destruct (existsb _ _); [done|].
  apply IH. intros q' Hq'. apply Hall. by apply list_elem_of_further.
Qed.

Lemma get_statistics_loop_returns packages c d n :
  Forall (complete_for self) packages →
  returns (get_statistics_loop self packages c d n).
Proof.
  intros Hall. revert c d n.
  induction Hall as [|pkg packages (Hin & Hpairs & [dd Hdd]) _ IH];
    intros c d n; simpl; [done|].
  pose proof (has_issues_loop_returns pkg (keys (_package_to_results self)) Hin) as Hr.
  fold (has_issues self pkg) in Hr.
  destruct (has_issues self pkg); [|by apply Hr; auto]. simpl.
  unfold has_deprecated_deps. rewrite Hdd. simpl. apply IH.
Qed.

(** C8: whatever list of packages [get_statistics] is given, the tuple it
    returns has the size of the configured catalogue as first component,
    counters of packages with issues and with deprecated dependencies
    between 0 and the length of the list, and a needing-update counter equal
    to 0.  The tuple is returned whenever the index is complete for every
    package of the list. *)
Theorem get_statistics_invariant packages :
  (∀ total_packages total_have_conflicts total_have_deprecated_deps
     total_needs_update,
     get_statistics self packages =
       Return (total_packages, total_have_conflicts,
               total_have_deprecated_deps, total_needs_update) →
     total_packages = Z.of_nat (length PKG_LIST) ∧
     0 ≤ total_have_conflicts ≤ Z.of_nat (length packages) ∧
     0 ≤ total_have_deprecated_deps ≤ Z.of_nat (length packages) ∧
     total_needs_update = 0) ∧
  (Forall (complete_for self) packages →
   returns (get_statistics self packages)).
Proof.
  unfold get_statistics. split.
  - intros t c d n.
    destruct (get_statistics_loop self packages 0 0 0) as [[[c' d'] n']|] eqn:Hloop;
      simpl; [|done].
    intros [= <- <- <- <-]. apply get_statistics_loop_bounds in Hloop. lia.
  - intros Hall.
    pose proof (get_statistics_loop_returns packages 0 0 0 Hall) as Hr.
    by destruct (get_statistics_loop self packages 0 0 0) as [[[c' d'] n']|].
Qed.

(** ** Lookup failures *)

Lemma not_in_keys p : p ∉ keys (_package_to_results self) ↔ self_results p = None.
Proof. rewrite keys_dict_get, eq_None_not_Some. done. Qed.

Lemma get_result_raises_iff p1 p2 :
  raises (get_result self p1 p2) ↔
  p1 ∉ keys (_package_to_results self) ∨
  p2 ∉ keys (_package_to_results self) ∨
  (p1 ≠ p2 ∧ pair_results p1 p2 = None).
Proof.
  rewrite !not_in_keys.
  destruct (self_results p1) as [l1|] eqn:H1;
    [|rewrite (get_result_missing_1 _ _ H1); simpl; tauto].
  destruct (self_results p2) as [l2|] eqn:H2;
    [|rewrite (get_result_missing_2 _ _ _ H1 H2); simpl; tauto].
  destruct (decide (p1 = p2)) as [<-|Hne].
  - rewrite (get_result_same _ _ H1). simpl.
    split; [done | intros [? | [? | [? _]]]; congruence].
  - destruct (pair_results p1 p2) as [lp|] eqn:Hp.
    + rewrite (get_result_distinct _ _ _ _ _ Hne H1 H2 Hp). simpl.
      split; [done | intros [? | [? | [_ ?]]]; congruence].
    + rewrite (get_result_missing_pair _ _ _ _ Hne H1 H2 Hp). simpl. tauto.
Qed.

Lemma has_deprecated_deps_raises_iff p :
  raises (has_deprecated_deps self p) ↔ deprecated_deps self !! install_name p = None.
Proof. unfold has_deprecated_deps. by destruct (deprecated_deps self !! _). Qed.

(** C9, as the code has it: [get_result(p1, p2)] raises a [KeyError] exactly
    when [p1] or [p2] is not a key of the self-result mapping or, for distinct
    packages, their pair is not a key of the pairwise mapping;
    [has_deprecated_deps(p1)] raises one exactly when the install name of [p1]
    is not a key of the map built from what the finder reported.  So, on an
    index that holds every pair of distinct indexed packages, [get_result]
    raises exactly for a package outside the indexed set, and so does
    [has_deprecated_deps] when the finder reported exactly the indexed
    packages.  A list that is present and empty gives UNKNOWN entries, not an
    exception. *)
Theorem lookups_raise_iff_key_missing p1 p2 :
  (raises (get_result self p1 p2) ↔
     p1 ∉ keys (_package_to_results self) ∨
     p2 ∉ keys (_package_to_results self) ∨
     (p1 ≠ p2 ∧ _pairwise_to_results self !! ({[p1; p2]} : gset Package) = None)) ∧
  (raises (has_deprecated_deps self p1) ↔
     deprecated_deps self !! install_name p1 = None) ∧
  ((∀ q1 q2, q1 ∈ keys (_package_to_results self) →
             q2 ∈ keys (_package_to_results self) → q1 ≠ q2 →
             is_Some (_pairwise_to_results self !! ({[q1; q2]} : gset Package))) →
   (raises (get_result self p1 p2) ↔
      p1 ∉ keys (_package_to_results self) ∨
      p2 ∉ keys (_package_to_results self))) ∧
  ((∀ q, q ∈ keys (_package_to_results self) ↔
         is_Some (deprecated_deps self !! install_name q)) →
   (raises (has_deprecated_deps self p1) ↔
      p1 ∉ keys (_package_to_results self))) ∧
  (∀ res, get_result self p1 p2 = Return res →
     (dict_get (_package_to_results self) p1 = Some [] ∨
      dict_get (_package_to_results self) p2 = Some [] →
      unknown_entry true ∈ self_compatibility_check res) ∧
     (p1 ≠ p2 → _pairwise_to_results self !! ({[p1; p2]} : gset Package) = Some [] →
      pairwise_compatibility_check res = [unknown_entry false])).
Proof.
  split_and!.
  - apply get_result_raises_iff.
  - apply has_deprecated_deps_raises_iff.
  - intros Hcomplete. rewrite get_result_raises_iff. split; [|tauto].
    intros [H | [H | [Hne Hp]]]; [by left | by right |].
    destruct (decide (p1 ∈ keys (_package_to_results self))) as [Hk1|]; [|by left].
    destruct (decide (p2 ∈ keys (_package_to_results self))) as [Hk2|]; [|by right].
    destruct (Hcomplete p1 p2 Hk1 Hk2 Hne) as [lp Hlp]. congruence.
  - intros Hsame. rewrite has_deprecated_deps_raises_iff, Hsame, eq_None_not_Some. done.
  - intros res Hres. split.
    + by apply unknown_entry_recorded_iff.
    + intros Hne Hp.
      destruct (get_result_Return_inv _ _ _ Hres) as (l1 & l2 & H1 & H2 & _).
      rewrite (get_result_distinct _ _ _ _ _ Hne H1 H2 Hp) in Hres.
      by injection Hres as <-.
Qed.

End Facts.

(** ** The shape of a classification *)

Section Shape.

Context {configs : Configs}.
Variable self : _ResultHolder.

Lemma failure_entry_not_SUCCESS is_self pr :
  reported pr = true → entry_status (failure_entry is_self pr) ≠ "SUCCESS".
Proof. intros Hs%reported_not_SUCCESS. simpl. by destruct (status pr). Qed.

Lemma self_entries_spec l1 l2 e :
  e ∈ self_entries l1 l2 → entry_status e ≠ "SUCCESS" ∧ entry_self e = true.
Proof.
  unfold self_entries. rewrite elem_of_app. intros [Hpre | Hfail].
  - destruct (truthy l1 && truthy l2); [by apply elem_of_nil in Hpre|].
    apply list_elem_of_singleton in Hpre as ->. done.
  - apply list_elem_of_In, in_map_iff in Hfail as (pr & <- & [_ Hpr]%filter_In).
    split; [by apply failure_entry_not_SUCCESS | done].
Qed.

Lemma pair_entries_spec lp e :
  e ∈ pair_entries lp → entry_status e ≠ "SUCCESS" ∧ entry_self e = false.
Proof.
  unfold pair_entries. rewrite elem_of_app. intros [Hpre | Hfail].
  - destruct (truthy lp); [by apply elem_of_nil in Hpre|].
    apply list_elem_of_singleton in Hpre as ->. done.
  - apply list_elem_of_In, in_map_iff in Hfail as (pr & <- & [_ Hpr]%filter_In).
    split; [by apply failure_entry_not_SUCCESS | done].
Qed.

(** Every classification that is returned has one of the two closed forms. *)
Lemma get_result_cases p1 p2 res :
  get_result self p1 p2 = Return res →
  (p1 = p2 ∧ ∃ l, dict_get (_package_to_results self) p1 = Some l ∧
     res = {| status_type := self_status_type l l;
              self_compatibility_check :=
                if truthy (self_entries l l) then self_entries l l
                else [success_entry true];
              pairwise_compatibility_check := [] |}) ∨
  (p1 ≠ p2 ∧ ∃ l1 l2 lp,
     dict_get (_package_to_results self) p1 = Some l1 ∧
     dict_get (_package_to_results self) p2 = Some l2 ∧
     _pairwise_to_results self !! ({[p1; p2]} : gset Package) = Some lp ∧
     res = {| status_type :=
                (let st := last_status_type "pairwise-" lp
                             (if truthy lp then self_status_type l1 l2
                              else "pairwise-unknown") in
                 if truthy (pair_entries lp) then st
                 else if String.eqb st "self-success" then "pairwise-success"
                      else st);
              self_compatibility_check := self_entries l1 l2;
              pairwise_compatibility_check :=
                if truthy (pair_entries lp) then pair_entries lp
                else [success_entry false] |}).
Proof.
  intros Hres.
  destruct (get_result_Return_inv self _ _ _ Hres) as (l1 & l2 & H1 & H2 & Hpair).
  destruct (decide (p1 = p2)) as [<-|Hne].
  - left. split; [done|]. exists l1. split; [done|].
    rewrite (get_result_same self _ _ H1) in Hres. by injection Hres.
  - right. split; [done|]. destruct (Hpair Hne) as [lp Hp].
    exists l1, l2, lp. split_and!; [done..|].
    rewrite (get_result_distinct self _ _ _ _ _ Hne H1 H2 Hp) in Hres.
    by injection Hres.
Qed.

Lemma truthy_true {A} (l : list A) : truthy l = true ↔ l ≠ [].
Proof. by destruct l. Qed.

(** X1: in a returned classification every entry of the self list carries
    [self = True] and every entry of the pairwise list [self = False]. *)
Theorem get_result_self_flags p1 p2 res :
  get_result self p1 p2 = Return res →
  Forall (λ e, entry_self e = true) (self_compatibility_check res) ∧
  Forall (λ e, entry_self e = false) (pairwise_compatibility_check res).
Proof.
  intros [(_ & l & _ & ->) | (_ & l1 & l2 & lp & _ & _ & _ & ->)]%get_result_cases;
    simpl.
  - split; [|by apply Forall_nil].
    destruct (truthy (self_entries l l)).
    + apply Forall_forall. intros e He. by apply (self_entries_spec l l).
    + by apply Forall_singleton.
  - split.
    + apply Forall_forall. intros e He. by apply (self_entries_spec l1 l2).
    + destruct (truthy (pair_entries lp)).
      * apply Forall_forall. intros e He. by apply (pair_entries_spec lp).
      * by apply Forall_singleton.
Qed.

(** X2: a package classified against itself has no pairwise entries and at
    least one self entry; two distinct packages have at least one pairwise
    entry. *)
Theorem get_result_lists_shape p1 p2 res :
  get_result self p1 p2 = Return res →
  (p1 = p2 → pairwise_compatibility_check res = [] ∧
             self_compatibility_check res ≠ []) ∧
  (p1 ≠ p2 → pairwise_compatibility_check res ≠ []).
Proof.
  intros [(Heq & l & _ & ->) | (Hne & l1 & l2 & lp & _ & _ & _ & ->)]%get_result_cases;
    simpl; (split; [|done || (intros _)]); try done.
  - intros _. split; [done|].
    destruct (truthy (self_entries l l)) eqn:Ht; [by apply truthy_true|done].
  - destruct (truthy (pair_entries lp)) eqn:Ht; [by apply truthy_true|done].
Qed.

(** X3: an entry of status SUCCESS is always alone in its list: the self list
    holds one only for a package classified against itself, and is then
    [[SELF_SUCCESS]]; a pairwise list that holds one is that single entry. *)
Theorem success_entry_alone p1 p2 res e :
  get_result self p1 p2 = Return res →
  entry_status e = "SUCCESS" →
  (e ∈ self_compatibility_check res →
   p1 = p2 ∧ self_compatibility_check res = [SELF_SUCCESS]) ∧
  (e ∈ pairwise_compatibility_check res →
   pairwise_compatibility_check res = [success_entry false]).
Proof.
  intros [(Heq & l & _ & ->) | (Hne & l1 & l2 & lp & _ & _ & _ & ->)]%get_result_cases
    Hs; simpl.
  - split; [|by intros ?%elem_of_nil].
    destruct (truthy (self_entries l l)); [|done].
    intros [Hno _]%self_entries_spec. done.
  - split.
    + intros [Hno _]%self_entries_spec. done.
    + destruct (truthy (pair_entries lp)); [|done].
      intros [Hno _]%pair_entries_spec. done.
Qed.

(** X4: when the self-result list of a package holds a reported result,
    the classification of the package against itself lists the entries of
    its reported results twice over, as the scan runs over the list
    concatenated with itself. *)
Theorem get_result_self_entries_twice p l :
  dict_get (_package_to_results self) p = Some l →
  List.filter reported l ≠ [] →
  ∃ res, get_result self p p = Return res ∧
         self_compatibility_check res =
         map (failure_entry true) (List.filter reported l) ++
         map (failure_entry true) (List.filter reported l).
Proof.
  intros Hl Hrep. eexists. split; [by apply get_result_same|]. simpl.
  unfold self_entries. rewrite filter_reported_app, map_app.
  assert (truthy l = true) as -> by (by destruct l).
  destruct (List.filter reported l) as [|pr' l']; done.
Qed.

(** X5: for two distinct packages the self list is, in this order: the
    UNKNOWN entry when one of the two self-result lists is empty, the
    entries of the reported results of the first package, then those of the
    second package, each in the order of its list. *)
Theorem get_result_self_entries_order p1 p2 l1 l2 res :
  p1 ≠ p2 →
  dict_get (_package_to_results self) p1 = Some l1 →
  dict_get (_package_to_results self) p2 = Some l2 →
  get_result self p1 p2 = Return res →
  self_compatibility_check res =
  (if truthy l1 && truthy l2 then [] else [unknown_entry true]) ++
  map (failure_entry true) (List.filter reported l1) ++
  map (failure_entry true) (List.filter reported l2).
Proof.
  intros Hne H1 H2
    [(Heq & _) | (_ & l1' & l2' & lp & H1' & H2' & _ & ->)]%get_result_cases;
    [done|].
  assert (l1' = l1) as -> by congruence.
  assert (l2' = l2) as -> by congruence.
  simpl. unfold self_entries. by rewrite filter_reported_app, map_app.
Qed.

Lemma last_status_type_cases level results before :
  last_status_type level results before = before ∧
    List.filter reported results = [] ∨
  ∃ pr, last (List.filter reported results) = Some pr ∧ status pr ≠ SUCCESS ∧
        last_status_type level results before =
        level +:+ lower (Status_.value (status pr)).
Proof.
  unfold last_status_type.
  destruct (last (List.filter reported results)) as [pr|] eqn:Hlast.
  - right. exists pr. split_and!; [done | | done].
    by apply last_filter_reported in Hlast as [_ ?%reported_not_SUCCESS].
  - left. by apply last_None in Hlast.
Qed.

(** X6: the status type of a returned classification is "self-" or
    "pairwise-" followed by "success", by "unknown" or by the lowercased
    value of a status other than SUCCESS; it is a "self-" one when a package
    is classified against itself. *)
Theorem status_type_tags p1 p2 res :
  get_result self p1 p2 = Return res →
  ∃ level tail,
    status_type res = level +:+ tail ∧
    (level = "self-" ∨ level = "pairwise-" ∧ p1 ≠ p2) ∧
    (tail = "success" ∨ tail = "unknown" ∨
     ∃ s, s ≠ SUCCESS ∧ tail = lower (Status_.value s)).
Proof.
  assert (Hself : ∀ l1 l2, ∃ tail,
    self_status_type l1 l2 = "self-" +:+ tail ∧
    (tail = "success" ∨ tail = "unknown" ∨
     ∃ s, s ≠ SUCCESS ∧ tail = lower (Status_.value s))).
  { intros l1 l2. unfold self_status_type.
    destruct (last_status_type_cases "self-" (l1 ++ l2)
                (if truthy l1 && truthy l2 then "self-success" else "self-unknown"))
      as [[-> _] | (pr & _ & Hs & ->)].
    - destruct (truthy l1 && truthy l2); [exists "success" | exists "unknown"]; auto.
    - eexists. split; [done|]. eauto. }
  intros [(Heq & l & _ & ->) | (Hne & l1 & l2 & lp & _ & _ & _ & ->)]%get_result_cases;
    simpl.
  - destruct (Hself l l) as (tail & -> & Htail). exists "self-", tail. auto.
  - destruct (last_status_type_cases "pairwise-" lp
                (if truthy lp then self_status_type l1 l2 else "pairwise-unknown"))
      as [[-> _] | (pr & _ & Hs & ->)].
    + destruct (truthy lp).
      * destruct (Hself l1 l2) as (tail & -> & Htail).
        destruct (truthy (pair_entries lp)); [exists "self-", tail; by auto|].
        destruct (String.eqb ("self-" +:+ tail) "self-success");
          [exists "pairwise-", "success" | exists "self-", tail]; auto.
      * destruct (truthy (pair_entries lp)); exists "pairwise-", "unknown"; auto.
    + assert (Hne' : String.eqb ("pairwise-" +:+ lower (Status_.value (status pr)))
                       "self-success" = false) by (by destruct (status pr)).
      rewrite Hne'.
      destruct (truthy (pair_entries lp));
        exists "pairwise-", (lower (Status_.value (status pr)));
        (split_and!; [done | by right | right; right; by exists (status pr)]).
Qed.

Lemma self_status_type_success l1 l2 :
  self_status_type l1 l2 = "self-success" ↔
  l1 ≠ [] ∧ l2 ≠ [] ∧
  List.filter reported l1 = [] ∧ List.filter reported l2 = [].
Proof.
  unfold self_status_type.
  destruct (last_status_type_cases "self-" (l1 ++ l2)
              (if truthy l1 && truthy l2 then "self-success" else "self-unknown"))
    as [[-> Hnone] | (pr & Hlast & Hs & ->)].
  - rewrite filter_reported_app in Hnone. apply app_eq_nil in Hnone as [-> ->].
    destruct l1, l2; simpl; split; try done; intros (? & ? & _); done.
  - split.
    + intros Heq. by destruct (status pr).
    + intros (_ & _ & Hn1 & Hn2).
      by rewrite filter_reported_app, Hn1, Hn2 in Hlast.
Qed.

(** X7: a classification is tagged as a success exactly when the data is
    clean.  For a package against itself, "self-success" means a self-result
    list that is not empty and has no reported result.  For two distinct
    packages the tag is never "self-success", and it is "pairwise-success"
    exactly when the two self-result lists and the pairwise list are not
    empty and none of them has a reported result. *)
Theorem success_status_iff_clean p1 p2 res :
  get_result self p1 p2 = Return res →
  (p1 = p2 →
   ∀ l, dict_get (_package_to_results self) p1 = Some l →
        (status_type res = "self-success" ↔
         l ≠ [] ∧ List.filter reported l = [])) ∧
  (p1 ≠ p2 →
   ∀ l1 l2 lp,
     dict_get (_package_to_results self) p1 = Some l1 →
     dict_get (_package_to_results self) p2 = Some l2 →
     _pairwise_to_results self !! ({[p1; p2]} : gset Package) = Some lp →
     status_type res ≠ "self-success" ∧
     (status_type res = "pairwise-success" ↔
      l1 ≠ [] ∧ l2 ≠ [] ∧ lp ≠ [] ∧
      List.filter reported l1 = [] ∧ List.filter reported l2 = [] ∧
      List.filter reported lp = [])).
Proof.
  intros [(Heq & l & Hl & ->) | (Hne & l1 & l2 & lp & H1 & H2 & Hp & ->)]%get_result_cases;
    (split; [|done || (intros _)]); try done.
  - intros _ l' Hl'. assert (l' = l) as -> by congruence. simpl.
    rewrite self_status_type_success. tauto.
  - intros l1' l2' lp' H1' H2' Hp'.
    assert (l1' = l1) as -> by congruence.
    assert (l2' = l2) as -> by congruence.
    assert (lp' = lp) as -> by congruence. simpl.
    unfold pair_entries.
    destruct (last_status_type_cases "pairwise-" lp
                (if truthy lp then self_status_type l1 l2 else "pairwise-unknown"))
      as [[-> Hnone] | (pr & Hlast & Hs & ->)].
    + rewrite Hnone. simpl. rewrite app_nil_r.
      destruct (truthy lp) eqn:Htl; simpl.
      * apply truthy_true in Htl.
        destruct (String.eqb (self_status_type l1 l2) "self-success") eqn:Heq.
        -- apply String.eqb_eq in Heq. split; [done|].
           apply self_status_type_success in Heq. tauto.
        -- apply String.eqb_neq in Heq. split; [done|].
           assert (Hpre : ∃ tail, self_status_type l1 l2 = "self-" +:+ tail).
           { unfold self_status_type.
             destruct (last_status_type_cases "self-" (l1 ++ l2)
               (if truthy l1 && truthy l2 then "self-success" else "self-unknown"))
               as [[-> _] | (pr & _ & _ & ->)]; [|by eauto].
             destruct (truthy l1 && truthy l2); by eauto. }
           destruct Hpre as [tail Htail]. split.
           ++ rewrite Htail. discriminate.
           ++ intros (? & ? & _ & ? & ? & _). destruct Heq.
              by apply self_status_type_success.
      * apply truthy_nil in Htl.
        split; [done|]. split; [done | intros (_ & _ & ? & _); done].
    + assert (Hrep : List.filter reported lp ≠ [])
        by (intros Hn; by rewrite Hn in Hlast).
      assert (truthy ((if truthy lp then [] else [unknown_entry false]) ++
                map (failure_entry false) (List.filter reported lp)) = true) as ->.
      { destruct (List.filter reported lp); [done|]. by destruct (truthy lp). }
      split; [by destruct (status pr)|].
      split; [by destruct (status pr) | intros (_ & _ & _ & _ & _ & ?); done].
Qed.

(** X8: a finding of the pairwise scan decides the status type, whatever
    the self scans found, so that both orders of the query agree on it: with
    an empty pairwise list it is "pairwise-unknown", and with a reported
    pairwise result it is "pairwise-" followed by the lowercased status value
    of the last one. *)
Theorem pairwise_finding_overrides p1 p2 l1 l2 lp :
  p1 ≠ p2 →
  dict_get (_package_to_results self) p1 = Some l1 →
  dict_get (_package_to_results self) p2 = Some l2 →
  _pairwise_to_results self !! ({[p1; p2]} : gset Package) = Some lp →
  lp = [] ∨ List.filter reported lp ≠ [] →
  ∃ r12 r21,
    get_result self p1 p2 = Return r12 ∧
    get_result self p2 p1 = Return r21 ∧
    status_type r12 = status_type r21 ∧
    status_type r12 =
      match last (List.filter reported lp) with
      | Some pr => "pairwise-" +:+ lower (Status_.value (status pr))
      | None => "pairwise-unknown"
      end.
Proof.
  intros Hne H1 H2 Hp Hfind.
  assert (Hkey : ({[p2; p1]} : gset Package) = {[p1; p2]})
    by apply (comm_L (∪)).
  assert (Hst : ∀ before,
    (let st := last_status_type "pairwise-" lp
                 (if truthy lp then before else "pairwise-unknown") in
     if truthy (pair_entries lp) then st
     else if String.eqb st "self-success" then "pairwise-success" else st) =
    match last (List.filter reported lp) with
    | Some pr => "pairwise-" +:+ lower (Status_.value (status pr))
    | None => "pairwise-unknown"
    end).
  { intros before. simpl. unfold pair_entries, last_status_type.
    destruct Hfind as [-> | Hrep]; [done|].
    destruct (List.filter reported lp) as [|pr l'] eqn:Hf; [done|].
    destruct (last (pr :: l')) as [pr'|] eqn:Hlast;
      [|by apply last_None in Hlast].
    by destruct (truthy lp). }
  eexists _, _. split; [by apply get_result_distinct|].
  split; [apply get_result_distinct; by rewrite ?Hkey|].
  simpl. by rewrite !Hst.
Qed.

(** X9: a self-level finding survives a clean pairwise scan.  For two
    distinct packages whose pairwise list is not empty and has no reported
    result, when a self-result list is empty or holds a reported result, the
    pairwise list is the single SUCCESS entry and the status type is the
    self-level one: "self-" followed by the lowercased status value of the
    last reported self result, or "self-unknown" when there is none. *)
Theorem self_finding_survives_clean_pair p1 p2 l1 l2 lp res :
  p1 ≠ p2 →
  dict_get (_package_to_results self) p1 = Some l1 →
  dict_get (_package_to_results self) p2 = Some l2 →
  _pairwise_to_results self !! ({[p1; p2]} : gset Package) = Some lp →
  lp ≠ [] →
  List.filter reported lp = [] →
  l1 = [] ∨ l2 = [] ∨ List.filter reported (l1 ++ l2) ≠ [] →
  get_result self p1 p2 = Return res →
  pairwise_compatibility_check res = [success_entry false] ∧
  status_type res =
    match last (List.filter reported (l1 ++ l2)) with
    | Some pr => "self-" +:+ lower (Status_.value (status pr))
    | None => "self-unknown"
    end.
Proof.
  intros Hne H1 H2 Hp Hlp Hclean Hself Hres.
  rewrite (get_result_distinct self _ _ _ _ _ Hne H1 H2 Hp) in Hres.
  injection Hres as <-. simpl.
  unfold pair_entries, last_status_type at 1 2 3. rewrite Hclean. simpl.
  assert (truthy lp = true) as -> by (by destruct lp). simpl.
  split; [done|].
  unfold self_status_type, last_status_type.
  destruct (last (List.filter reported (l1 ++ l2))) as [pr|] eqn:Hlast.
  - apply last_filter_reported in Hlast as [_ Hs%reported_not_SUCCESS].
    by destruct (status pr).
  - apply last_None in Hlast.
    destruct Hself as [-> | [-> | Hrep]]; [done | by destruct l1 | done].
Qed.

Lemma last_map {A B} (f : A → B) (l : list A) : last (map f l) = f <$> last l.
Proof.
  induction l as [|x l IH]; [done|]. simpl map.
  rewrite !last_cons, IH. by destruct (last l).
Qed.

Lemma findings_app l1 l2 : findings (l1 ++ l2) = findings l1 ++ findings l2.
Proof. unfold findings. by rewrite filter_reported_app, map_app. Qed.

Lemma failure_entries_findings is_self l :
  map (failure_entry is_self) (List.filter reported l) =
  map (λ f, {| entry_status := Status_.value f.1;
               entry_self := is_self;
               entry_details := Some f.2 |}) (findings l).
Proof. unfold findings. by rewrite map_map. Qed.

Lemma last_status_type_findings level l before :
  last_status_type level l before =
  match last (findings l) with
  | Some f => level +:+ lower (Status_.value f.1)
  | None => before
  end.
Proof.
  unfold last_status_type, findings. rewrite last_map.
  by destruct (last (List.filter reported l)).
Qed.

Lemma self_entries_same l1 l2 l1' l2' :
  same_findings l1 l1' → same_findings l2 l2' →
  self_entries l1 l2 = self_entries l1' l2' ∧
  self_status_type l1 l2 = self_status_type l1' l2'.
Proof.
  intros [Ht1 Hf1] [Ht2 Hf2]. unfold self_entries, self_status_type.
  rewrite !failure_entries_findings, !last_status_type_findings, !findings_app.
  by rewrite Ht1, Ht2, Hf1, Hf2.
Qed.

Lemma pair_entries_same lp lp' before :
  same_findings lp lp' →
  pair_entries lp = pair_entries lp' ∧
  last_status_type "pairwise-" lp before =
  last_status_type "pairwise-" lp' before.
Proof.
  intros [Ht Hf]. unfold pair_entries.
  rewrite !failure_entries_findings, !last_status_type_findings.
  by rewrite Ht, Hf.
Qed.

(** X10: a classification depends on the result lists only through their
    being empty or not and through the statuses and details of their
    reported results, in order.  Two holders whose lists agree in this
    respect for the two packages, and for their pair when they are distinct,
    answer the query alike; results of status SUCCESS and excluded results
    change nothing beyond making a list non-empty. *)
Theorem get_result_depends_on_findings (other : _ResultHolder) p1 p2 l1 l2 l1' l2' :
  dict_get (_package_to_results self) p1 = Some l1 →
  dict_get (_package_to_results self) p2 = Some l2 →
  dict_get (_package_to_results other) p1 = Some l1' →
  dict_get (_package_to_results other) p2 = Some l2' →
  same_findings l1 l1' →
  same_findings l2 l2' →
  (p1 ≠ p2 →
   match _pairwise_to_results self !! ({[p1; p2]} : gset Package),
         _pairwise_to_results other !! ({[p1; p2]} : gset Package) with
   | Some lp, Some lp' => same_findings lp lp'
   | None, None => True
   | _, _ => False
   end) →
  get_result self p1 p2 = get_result other p1 p2.
Proof.
  intros H1 H2 H1' H2' Hs1 Hs2 Hpair.
  destruct (decide (p1 = p2)) as [<-|Hne].
  - assert (l2 = l1) as -> by congruence.
    assert (l2' = l1') as -> by congruence.
    rewrite (get_result_same self _ _ H1), (get_result_same other _ _ H1').
    by destruct (self_entries_same l1 l1 l1' l1' Hs1 Hs1) as [-> ->].
  - specialize (Hpair Hne).
    destruct (_pairwise_to_results self !! ({[p1; p2]} : gset Package))
      as [lp|] eqn:Hp;
      destruct (_pairwise_to_results other !! ({[p1; p2]} : gset Package))
      as [lp'|] eqn:Hp'; try done.
    + rewrite (get_result_distinct self _ _ _ _ _ Hne H1 H2 Hp).
      rewrite (get_result_distinct other _ _ _ _ _ Hne H1' H2' Hp').
      destruct (self_entries_same l1 l2 l1' l2' Hs1 Hs2) as [-> ->].
      destruct Hpair as [Ht Hf].
      destruct (pair_entries_same lp lp'
                  (if truthy lp' then self_status_type l1' l2'
                   else "pairwise-unknown") (conj Ht Hf)) as [-> Hlast].
      rewrite Ht. simpl. by rewrite Hlast.
    + rewrite (get_result_missing_pair self _ _ _ _ Hne H1 H2 Hp).
      by rewrite (get_result_missing_pair other _ _ _ _ Hne H1' H2' Hp').
Qed.

End Shape.

(** ** Issues, in terms of the indexed results *)

Section Issues.

Context {configs : Configs}.
Variable self : _ResultHolder.

Lemma pair_entries_truthy lp :
  truthy (pair_entries lp) = true ↔ lp = [] ∨ List.filter reported lp ≠ [].
Proof.
  unfold pair_entries. destruct lp as [|rp lp]; [simpl; split; by auto|].
  change (truthy (rp :: lp)) with true. rewrite app_nil_l.
  destruct (List.filter reported (rp :: lp)); simpl; split; try done.
  - intros [? | ?]; done.
  - by right.
Qed.

Lemma self_entries_truthy l :
  truthy (self_entries l l) = false ↔ l ≠ [] ∧ List.filter reported l = [].
Proof.
  unfold self_entries. rewrite filter_reported_app.
  destruct l as [|r l]; [simpl; split; [done | by intros [? _]]|].
  change (truthy (r :: l)) with true. simpl andb. rewrite app_nil_l.
  destruct (List.filter reported (r :: l)); simpl; split; try done.
  by intros [_ ?].
Qed.

(** The test [SELF_SUCCESS in ...] of [has_issues], on the self
    classification of a package. *)
Lemma SELF_SUCCESS_in_self_check l :
  SELF_SUCCESS ∈ (if truthy (self_entries l l) then self_entries l l
                  else [success_entry true]) ↔
  l ≠ [] ∧ List.filter reported l = [].
Proof.
  rewrite <- self_entries_truthy.
  destruct (truthy (self_entries l l)) eqn:Ht.
  - split; [|done]. intros [Hno _]%self_entries_spec. done.
  - split; [done|]. intros _. apply list_elem_of_here.
Qed.

(** The inner loop of [has_issues], on the pairwise list of a
    classification. *)
Lemma pair_check_finding (clean : bool) lp :
  existsb (λ result, clean && negb (String.eqb (entry_status result) "SUCCESS"))
    (if truthy (pair_entries lp) then pair_entries lp else [success_entry false])
  = true ↔
  clean = true ∧ (lp = [] ∨ List.filter reported lp ≠ []).
Proof.
  rewrite <- pair_entries_truthy.
  destruct (truthy (pair_entries lp)) eqn:Ht.
  - rewrite existsb_exists. split.
    + intros (e & _ & [? _]%andb_true_iff). done.
    + intros [-> _]. destruct (pair_entries lp) as [|e es] eqn:Hes; [done|].
      exists e. split; [by left|]. simpl.
      assert (He : e ∈ pair_entries lp) by (rewrite Hes; apply list_elem_of_here).
      apply pair_entries_spec in He as [He _].
      by apply negb_true_iff, String.eqb_neq.
  - simpl. rewrite andb_false_r. split; [done | by intros [_ ?]].
Qed.

Lemma has_issues_body_iff p q lp_self lq lp :
  p ≠ q →
  dict_get (_package_to_results self) p = Some lp_self →
  dict_get (_package_to_results self) q = Some lq →
  _pairwise_to_results self !! ({[p; q]} : gset Package) = Some lp →
  ∃ b, has_issues_body self p q = Return b ∧
       (b = true ↔
        (lq ≠ [] ∧ List.filter reported lq = []) ∧
        (lp = [] ∨ List.filter reported lp ≠ [])).
Proof.
  intros Hne Hp Hq Hpair. unfold has_issues_body.
  rewrite (get_result_distinct self _ _ _ _ _ Hne Hp Hq Hpair).
  rewrite (get_result_same self _ _ Hq). simpl.
  eexists. split; [done|].
  rewrite pair_check_finding, <- SELF_SUCCESS_in_self_check.
  destruct (bool_decide _) eqn:Hd.
  - apply bool_decide_eq_true in Hd. tauto.
  - apply bool_decide_eq_false in Hd. simpl. split; [by intros [? _] | tauto].
Qed.

Lemma has_issues_loop_spec p ks :
  (∀ q, q ∈ ks → returns (has_issues_body self p q)) →
  has_issues_loop self p ks =
  Return (existsb (λ q, is_True (has_issues_body self p q)) ks).
Proof.
  induction ks as [|q ks IH]; intros Hret; simpl; [done|].
  pose proof (Hret q (list_elem_of_here _ _)) as Hq.
  destruct (has_issues_body self p q) as [[|]|]; simpl; [done | | done].
  apply IH. intros q' Hq'. apply Hret. by apply list_elem_of_further.
Qed.

(** X11: on an index that is complete for [p] ([p] is indexed and its pair
    with every other indexed package is a key of the pairwise mapping),
    [has_issues(p)] returns, and it returns [True] exactly when some other
    indexed package [q] has self results, none of them reported, while the
    pairwise list of [p] and [q] is empty or holds a reported result.  The
    self results of [p] itself play no part. *)
Theorem has_issues_iff p :
  p ∈ keys (_package_to_results self) →
  (∀ q, q ∈ keys (_package_to_results self) → q ≠ p →
        is_Some (_pairwise_to_results self !! ({[p; q]} : gset Package))) →
  ∃ b, has_issues self p = Return b ∧
       (b = true ↔
        ∃ q lq lp,
          q ∈ keys (_package_to_results self) ∧ q ≠ p ∧
          dict_get (_package_to_results self) q = Some lq ∧
          _pairwise_to_results self !! ({[p; q]} : gset Package) = Some lp ∧
          lq ≠ [] ∧ List.filter reported lq = [] ∧
          (lp = [] ∨ List.filter reported lp ≠ [])).
Proof.
  intros Hp Hpairs. pose proof Hp as [lp_self Hlp]%keys_dict_get.
  assert (Hbody : ∀ q, q ∈ keys (_package_to_results self) → q ≠ p →
    ∃ lq lp b, dict_get (_package_to_results self) q = Some lq ∧
      _pairwise_to_results self !! ({[p; q]} : gset Package) = Some lp ∧
      has_issues_body self p q = Return b ∧
      (b = true ↔ (lq ≠ [] ∧ List.filter reported lq = []) ∧
                  (lp = [] ∨ List.filter reported lp ≠ []))).
  { intros q Hq Hne. pose proof Hq as [lq Hlq]%keys_dict_get.
    destruct (Hpairs q Hq Hne) as [lp Hlpq].
    destruct (has_issues_body_iff p q lp_self lq lp) as (b & Hb & Hiff); [done..|].
    by exists lq, lp, b. }
  eexists. split.
  - apply has_issues_loop_spec. intros q Hq.
    destruct (decide (q = p)) as [->|Hne].
    + by rewrite (has_issues_body_same self).
    + destruct (Hbody q Hq Hne) as (_ & _ & b & _ & _ & -> & _). done.
  - rewrite existsb_exists. split.
    + intros (q & Hq%list_elem_of_In & Htrue).
      destruct (decide (q = p)) as [->|Hne].
      { by rewrite (has_issues_body_same self) in Htrue. }
      destruct (Hbody q Hq Hne) as (lq & lp & b & Hlq & Hlpq & Hb & Hiff).
      rewrite Hb in Htrue. destruct b; [|done].
      exists q, lq, lp. split_and!; try done; by apply Hiff.
    + intros (q & lq & lp & Hq & Hne & Hlq & Hlpq & Hlq1 & Hlq2 & Hfind).
      exists q. split; [by apply list_elem_of_In|].
      destruct (Hbody q Hq Hne) as (lq' & lp' & b & Hlq' & Hlpq' & -> & Hiff).
      assert (lq' = lq) as -> by congruence.
      assert (lp' = lp) as -> by congruence.
      destruct b; [done|]. by destruct (proj2 Hiff).
Qed.

(** X12: [has_issues] on a package outside the index.  With an empty index
    there is nothing to iterate over and the answer is [False]; with any
    other index the first iteration raises the [KeyError] of the package. *)
Theorem has_issues_unindexed p :
  p ∉ keys (_package_to_results self) →
  (_package_to_results self = [] → has_issues self p = Return false) ∧
  (_package_to_results self ≠ [] →
   has_issues self p = Raise (KeyError (PackageKey p))).
Proof.
  intros Hp%not_in_keys. unfold has_issues. split.
  - by intros ->.
  - intros Hne.
    pose proof (get_result_missing_1 self p) as Hraise.
    destruct (_package_to_results self) as [|[q lq] rest]; [done|].
    simpl. unfold has_issues_body. by rewrite (Hraise q Hp).
Qed.

End Issues.

(** ** Statistics, as tallies *)

Section Tallies.

Context {configs : Configs}.
Variable self : _ResultHolder.

Local Abbreviation with_issues :=
  (List.filter (λ p, is_True (has_issues self p))).
Local Abbreviation with_deprecated_deps :=
  (List.filter (λ p, is_True (has_deprecated_deps self p))).

Lemma get_statistics_loop_spec packages c d n :
  (∀ p, p ∈ packages →
        returns (has_issues self p) ∧ returns (has_deprecated_deps self p)) →
  get_statistics_loop self packages c d n =
  Return (c + Z.of_nat (length (with_issues packages)),
          d + Z.of_nat (length (with_deprecated_deps packages)),
          n).
Proof.
  revert c d n. induction packages as [|pkg packages IH]; intros c d n Hret.
  - simpl. by rewrite !Z.add_0_r.
  - destruct (Hret pkg (list_elem_of_here _ _)) as [Hi Hd]. simpl.
    destruct (has_issues self pkg) as [issues|]; [|done].
    destruct (has_deprecated_deps self pkg) as [deprecated|]; [|done].
    simpl. rewrite IH by (intros q Hq; by apply Hret, list_elem_of_further).
    destruct issues, deprecated; cbn [length is_True]; rewrite ?Nat2Z.inj_succ;
      do 3 f_equal; lia.
Qed.

Lemma get_statistics_loop_raises packages c d n :
  raises (get_statistics_loop self packages c d n) ↔
  ∃ p, p ∈ packages ∧
       (raises (has_issues self p) ∨ raises (has_deprecated_deps self p)).
Proof.
  revert c d n. induction packages as [|pkg packages IH]; intros c d n; simpl.
  - split; [done | by intros (p & ?%elem_of_nil & _)].
  - destruct (has_issues self pkg) as [issues|e] eqn:Hi; simpl.
    + destruct (has_deprecated_deps self pkg) as [deprecated|e] eqn:Hd; simpl.
      * rewrite IH. split.
        -- intros (q & Hq & Hr). exists q. split; [by apply list_elem_of_further|done].
        -- intros (q & [-> | Hq]%elem_of_cons & Hr).
           ++ rewrite Hi, Hd in Hr. by destruct Hr.
           ++ by exists q.
      * split; [intros _ | done]. exists pkg.
        split; [apply list_elem_of_here | right; by rewrite Hd].
    + split; [intros _ | done]. exists pkg.
      split; [apply list_elem_of_here | left; by rewrite Hi].
Qed.

Lemma get_statistics_as_loop packages :
  get_statistics self packages =
  match get_statistics_loop self packages 0 0 0 with
  | Return (c, d, n) => Return (Z.of_nat (length PKG_LIST), c, d, n)
  | Raise e => Raise e
  end.
Proof.
  unfold get_statistics.
  by destruct (get_statistics_loop self packages 0 0 0) as [[[c d] n]|].
Qed.

Lemma not_raises_returns {A} (m : Outcome A) : ¬ raises m ↔ returns m.
Proof. destruct m; simpl; tauto. Qed.

Lemma get_statistics_Return_inv packages st :
  get_statistics self packages = Return st →
  ∀ p, p ∈ packages →
       returns (has_issues self p) ∧ returns (has_deprecated_deps self p).
Proof.
  rewrite get_statistics_as_loop. intros Hst p Hp.
  assert (Hno : ¬ raises (get_statistics_loop self packages 0 0 0)).
  { intros Hr.
    by destruct (get_statistics_loop self packages 0 0 0) as [[[c d] n]|]. }
  rewrite get_statistics_loop_raises in Hno.
  rewrite <- !not_raises_returns. split; intros Hr; apply Hno; eauto.
Qed.

(** X13: the tuple [get_statistics] returns holds exact tallies: its second
    component is the number of positions of the given list whose package
    has issues, its third the number of those whose package has deprecated
    dependencies; a package listed twice is counted twice. *)
Theorem get_statistics_tallies packages total c d n :
  get_statistics self packages = Return (total, c, d, n) →
  c = Z.of_nat (length (List.filter (λ p, is_True (has_issues self p)) packages)) ∧
  d = Z.of_nat (length (List.filter (λ p, is_True (has_deprecated_deps self p))
                          packages)).
Proof.
  intros Hst. pose proof (get_statistics_Return_inv _ _ Hst) as Hret.
  rewrite get_statistics_as_loop, (get_statistics_loop_spec _ 0 0 0 Hret) in Hst.
  injection Hst as _ <- <- _. lia.
Qed.

(** X14: [get_statistics] raises exactly when [has_issues] or
    [has_deprecated_deps] raises for a package of the given list. *)
Theorem get_statistics_raises_iff packages :
  raises (get_statistics self packages) ↔
  ∃ p, p ∈ packages ∧
       (raises (has_issues self p) ∨ raises (has_deprecated_deps self p)).
Proof.
  rewrite <- (get_statistics_loop_raises packages 0 0 0), get_statistics_as_loop.
  by destruct (get_statistics_loop self packages 0 0 0) as [[[c d] n]|].
Qed.

Lemma get_statistics_loop_app l1 l2 c d n :
  (∀ p, p ∈ l1 →
        returns (has_issues self p) ∧ returns (has_deprecated_deps self p)) →
  get_statistics_loop self (l1 ++ l2) c d n =
  get_statistics_loop self l2
    (c + Z.of_nat (length (with_issues l1)))
    (d + Z.of_nat (length (with_deprecated_deps l1)))
    n.
Proof.
  revert c d n. induction l1 as [|pkg l1 IH]; intros c d n Hret.
  - simpl. by rewrite !Z.add_0_r.
  - destruct (Hret pkg (list_elem_of_here _ _)) as [Hi Hd]. simpl.
    destruct (has_issues self pkg) as [issues|]; [|done].
    destruct (has_deprecated_deps self pkg) as [deprecated|]; [|done].
    simpl. rewrite IH by (intros q Hq; by apply Hret, list_elem_of_further).
    destruct issues, deprecated; cbn [length is_True]; rewrite ?Nat2Z.inj_succ;
      f_equal; lia.
Qed.

(** X15: the exception of [get_statistics] is that of the first package of
    the list for which a query raises, and for that package [has_issues] is
    queried before [has_deprecated_deps]. *)
Theorem get_statistics_first_failure before pkg after e :
  (∀ p, p ∈ before →
        returns (has_issues self p) ∧ returns (has_deprecated_deps self p)) →
  has_issues self pkg = Raise e ∨
  (returns (has_issues self pkg) ∧ has_deprecated_deps self pkg = Raise e) →
  get_statistics self (before ++ pkg :: after) = Raise e.
Proof.
  intros Hret Hfail.
  rewrite get_statistics_as_loop, (get_statistics_loop_app _ _ 0 0 0 Hret).
  simpl. destruct Hfail as [-> | [Hi ->]]; [done|].
  by destruct (has_issues self pkg).
Qed.

(** X16: statistics add up over concatenation: when [get_statistics]
    returns for two lists it returns for their concatenation, with the same
    total and the sums of the two tallies. *)
Theorem get_statistics_app l1 l2 t1 c1 d1 n1 t2 c2 d2 n2 :
  get_statistics self l1 = Return (t1, c1, d1, n1) →
  get_statistics self l2 = Return (t2, c2, d2, n2) →
  get_statistics self (l1 ++ l2) = Return (t1, c1 + c2, d1 + d2, 0).
Proof.
  intros H1 H2.
  pose proof (get_statistics_Return_inv _ _ H1) as Hret1.
  pose proof (get_statistics_Return_inv _ _ H2) as Hret2.
  rewrite get_statistics_as_loop in *.
  rewrite (get_statistics_loop_app _ _ 0 0 0 Hret1).
  rewrite (get_statistics_loop_spec _ 0 0 0 Hret1) in H1.
  rewrite (get_statistics_loop_spec _ 0 0 0 Hret2) in H2.
  rewrite (get_statistics_loop_spec _ _ _ 0 Hret2).
  injection H1 as <- <- <- _. injection H2 as _ <- <- _.
  apply (f_equal Return). rewrite !pair_equal_spec. lia.
Qed.

Lemma filter_length_Permutation {A} (f : A → bool) (l l' : list A) :
  l ≡ₚ l' → length (List.filter f l) = length (List.filter f l').
Proof.
  induction 1 as [|x l l' _ IH|x y l|l l' l'' _ IH1 _ IH2]; simpl.
  - done.
  - destruct (f x); simpl; by rewrite IH.
  - by destruct (f x), (f y).
  - by rewrite IH1.
Qed.

(** X17: the statistics do not depend on the order of the given list: when
    [get_statistics] returns for a list, it returns the same tuple for every
    rearrangement of it. *)
Theorem get_statistics_Permutation l l' st :
  l ≡ₚ l' →
  get_statistics self l = Return st →
  get_statistics self l' = Return st.
Proof.
  intros Hperm Hst.
  pose proof (get_statistics_Return_inv _ _ Hst) as Hret.
  assert (Hret' : ∀ p, p ∈ l' →
    returns (has_issues self p) ∧ returns (has_deprecated_deps self p)).
  { intros p Hp. apply Hret. by rewrite Hperm. }
  rewrite get_statistics_as_loop in *.
  rewrite (get_statistics_loop_spec _ 0 0 0 Hret) in Hst.
  rewrite (get_statistics_loop_spec _ 0 0 0 Hret').
  rewrite <- Hst.
  by rewrite (filter_length_Permutation _ _ _ Hperm),
    (filter_length_Permutation (λ p, is_True (has_deprecated_deps self p)) _ _ Hperm).
Qed.

End Tallies.

(** ** The deprecated-dependency index *)

Section DeprecatedDeps.

Lemma get_deprecated_deps_fold items name (results : gmap string (list string * bool)) :
  fold_left
    (fun results item =>
       let '(pkg_name, deps) := item in
       let has_deprecated_deps := truthy deps in
       <[pkg_name := (deps, has_deprecated_deps)]> results)
    items results !! name =
  match last_item_for name items with
  | Some item => Some (snd item, truthy (snd item))
  | None => results !! name
  end.
Proof.
  unfold last_item_for. revert results.
  induction items as [|[pkg_name deps] items IH]; intros results; [done|].
  simpl fold_left. rewrite IH. simpl List.filter.
  destruct (String.eqb pkg_name name) eqn:Heq.
  - apply String.eqb_eq in Heq as ->. rewrite last_cons.
    destruct (last (List.filter _ items)); [done|].
    by rewrite lookup_insert_eq.
  - apply String.eqb_neq in Heq.
    destruct (last (List.filter _ items)); [done|].
    by rewrite lookup_insert_ne.
Qed.

Lemma get_deprecated_deps_lookup items name :
  get_deprecated_deps items !! name =
  (λ item, (snd item, truthy (snd item))) <$> last_item_for name items.
Proof.
  unfold get_deprecated_deps. rewrite get_deprecated_deps_fold.
  by destruct (last_item_for name items).
Qed.

Lemma last_item_for_Some name items item :
  last_item_for name items = Some item → fst item = name ∧ item ∈ items.
Proof.
  unfold last_item_for.
  intros [Hin Heq%String.eqb_eq]%last_Some_elem_of%list_elem_of_In%filter_In.
  by rewrite list_elem_of_In.
Qed.

Lemma last_item_for_None name items :
  last_item_for name items = None ↔ ∀ deps, (name, deps) ∉ items.
Proof.
  unfold last_item_for. rewrite last_None. split.
  - intros Hnil deps Hin%list_elem_of_In.
    assert (Hf : In (name, deps)
                   (List.filter (λ item, String.eqb (fst item) name) items)).
    { apply filter_In. split; [done|]. apply String.eqb_refl. }
    by rewrite Hnil in Hf.
  - intros Hno.
    destruct (List.filter _ items) as [|[n deps] l] eqn:Hf; [done|].
    assert (Hin : In (n, deps)
                    (List.filter (λ item, String.eqb (fst item) name) items))
      by (rewrite Hf; by left).
    apply filter_In in Hin as [Hin Heq%String.eqb_eq]. simpl in Heq. subst n.
    by destruct (Hno deps); apply list_elem_of_In.
Qed.

(** X18: on a holder made by the constructor, [has_deprecated_deps(p)]
    answers from the last item the finder yielded for the install name of
    [p]: [True] exactly when its list of dependencies is not empty.  It
    raises the [KeyError] of the install name when the finder yielded no
    item for it. *)
Theorem has_deprecated_deps_of_finder package_to_results pairwise_to_results
    finder_items p :
  has_deprecated_deps
    (new_ResultHolder package_to_results pairwise_to_results finder_items) p =
  match last_item_for (install_name p) finder_items with
  | Some item => Return (truthy (snd item))
  | None => Raise (KeyError (NameKey (install_name p)))
  end.
Proof.
  unfold has_deprecated_deps, new_ResultHolder. simpl.
  rewrite get_deprecated_deps_lookup.
  by destruct (last_item_for (install_name p) finder_items).
Qed.

(** X19: the map [get_deprecated_deps] builds has a key for exactly the
    names the finder yielded, and every value it holds is a list of
    dependencies the finder yielded for the name together with the flag
    telling whether that list is not empty. *)
Theorem get_deprecated_deps_invariant finder_items name :
  (is_Some (get_deprecated_deps finder_items !! name) ↔
   ∃ deps, (name, deps) ∈ finder_items) ∧
  (∀ deps flag,
     get_deprecated_deps finder_items !! name = Some (deps, flag) →
     (name, deps) ∈ finder_items ∧ flag = truthy deps).
Proof.
  rewrite get_deprecated_deps_lookup. split.
  - destruct (last_item_for name finder_items) as [[n deps]|] eqn:Hlast; simpl.
    + apply last_item_for_Some in Hlast as [Hn Hin]. simpl in Hn. subst n.
      split; [by eauto | by eauto].
    + split; [by intros [? ?]|].
      intros [deps Hin]. by destruct (proj1 (last_item_for_None _ _) Hlast deps).
  - intros deps flag.
    destruct (last_item_for name finder_items) as [[n deps']|] eqn:Hlast;
      simpl; [|done].
    intros [= <- <-].
    apply last_item_for_Some in Hlast as [Hn Hin]. simpl in Hn. by subst n.
Qed.

End DeprecatedDeps.

(** ** Worked instances *)

Section Instances.

Import Examples.


(** C1 fails as stated: with the self results [SUCCESS] for A and none for B,
    [get_result(A, B)] records the self entry of status UNKNOWN although the
    two self-result lists are not both empty. *)
Lemma unknown_entry_recorded_with_one_empty_list :
  ∃ res, get_result half_known A B = Return res ∧
         unknown_entry true ∈ self_compatibility_check res ∧
         status_type res = "pairwise-unknown" ∧
         ¬ (dict_get (_package_to_results half_known) A = Some [] ∧
            dict_get (_package_to_results half_known) B = Some []).
Proof.
  exists half_known_A_B. split_and!.
  - vm_compute. reflexivity.
  - apply list_elem_of_here.
  - reflexivity.
  - intros [HA _]. vm_compute in HA. discriminate HA.
Qed.

Lemma get_result_unknown_entry_iff_witness :
  get_result half_known A B = Return half_known_A_B ∧
  (unknown_entry true ∈ self_compatibility_check half_known_A_B ↔
     dict_get (_package_to_results half_known) A = Some [] ∨
     dict_get (_package_to_results half_known) B = Some []).
Proof.
  assert (H : get_result half_known A B = Return half_known_A_B)
    by (vm_compute; reflexivity).
  split; [exact H|].
  exact (proj1 (get_result_unknown_entry_iff half_known A B half_known_A_B H)).
Defined.

(** C2 fails as stated: the self result of A in this index is scanned by
    [get_result(A, B)], appends no entry and leaves the status type as it
    is, and yet its status is SUCCESS, not INSTALL_ERROR. *)
Lemma success_result_scanned_without_entry :
  dict_get (_package_to_results all_good) A = Some [ok A] ∧
  scan "self-" true ([] ++ [ok A]) ([], "self-success") =
    scan "self-" true [] ([], "self-success") ∧
  (∃ res, get_result all_good A B = Return res ∧
          self_compatibility_check res = []) ∧
  ¬ py_version_not_supported (ok A).
Proof.
  split_and!.
  - reflexivity.
  - reflexivity.
  - eexists. split; vm_compute; reflexivity.
  - intros [Hs _]. discriminate Hs.
Qed.

Lemma scanned_result_skipped_iff_witness :
  (status (failed [TF] INSTALL_ERROR 2) ≠ SUCCESS ∧
   (∀ level is_self before acc,
      scan level is_self (before ++ [failed [TF] INSTALL_ERROR 2]) acc =
      scan level is_self before acc) ∧
   (∀ p, dict_get (_package_to_results py2) p =
           Some [failed [TF] INSTALL_ERROR 2] →
         get_result py2 p p =
         Return {| status_type := "self-success";
                   self_compatibility_check := [SELF_SUCCESS];
                   pairwise_compatibility_check := [] |})) ∧
  (∃ res, get_result mixed A B = Return res ∧
          failure_entry true (failed [A] INSTALL_ERROR 3) ∈
          self_compatibility_check res).
Proof.
  pose proof (scanned_result_skipped_iff py2) as (_ & _ & _ & _ & Hpy2).
  pose proof (scanned_result_skipped_iff mixed) as (_ & _ & Hself & _).
  split.
  - apply (Hpy2 (failed [TF] INSTALL_ERROR 2) TF).
    + reflexivity.
    + reflexivity.
    + apply list_elem_of_here.
    + apply list_elem_of_here.
  - eexists. split; [vm_compute; reflexivity|].
    refine (proj1 (proj2 (Hself A B
              [failed [A] INSTALL_ERROR 3; ok A; failed [A] CHECK_WARNING 3]
              [ok B] _ _ _ _)) (failed [A] INSTALL_ERROR 3) _ _).
    + reflexivity.
    + reflexivity.
    + vm_compute. reflexivity.
    + apply list_elem_of_here.
    + intros [Hs | (_ & version & Hv & Hmaj & pkg & Hpkg & Hin)];
        [discriminate Hs|].
      simpl in Hmaj. subst version. each_member Hpkg. cbn in Hin.
      apply elem_of_cons in Hin as [Hin | Hin];
        [discriminate Hin | by apply elem_of_nil in Hin].
Defined.

Lemma get_result_self_all_success_witness :
  get_result all_good B B =
  Return {| status_type := "self-success";
            self_compatibility_check :=
              [ {| entry_status := "SUCCESS"; entry_self := true;
                   entry_details := None |} ];
            pairwise_compatibility_check := [] |}.
Proof.
  apply (get_result_self_all_success all_good B [ok B; ok B]).
  - reflexivity.
  - discriminate.
  - repeat constructor.
Defined.

Lemma get_result_self_no_results_witness :
  get_result half_known B B =
  Return {| status_type := "self-unknown";
            self_compatibility_check :=
              [ {| entry_status := "UNKNOWN"; entry_self := true;
                   entry_details := None |} ];
            pairwise_compatibility_check := [] |}.
Proof.
  apply (get_result_self_no_results half_known B).
  reflexivity.
Defined.

Lemma get_result_symmetric_witness :
  match get_result mixed A C, get_result mixed C A with
  | Return r12, Return r21 =>
      is_Some (_pairwise_to_results mixed !! ({[A; C]} : gset Package)) ∧
      pairwise_compatibility_check r12 = pairwise_compatibility_check r21 ∧
      self_compatibility_check r12 ≡ₚ self_compatibility_check r21
  | Raise e12, Raise e21 =>
      _pairwise_to_results mixed !! ({[A; C]} : gset Package) = None ∧ e12 = e21
  | _, _ => False
  end.
Proof.
  apply (get_result_symmetric mixed A C).
  - discriminate.
  - apply list_elem_of_here.
  - apply list_elem_of_further, list_elem_of_further, list_elem_of_here.
Defined.

Lemma get_result_self_last_wins_witness :
  ∃ res, get_result mixed A A = Return res ∧
         status_type res =
         "self-" +:+ lower (Status_.value (status (failed [A] CHECK_WARNING 3))).
Proof.
  apply (get_result_self_last_wins mixed A
           [failed [A] INSTALL_ERROR 3; ok A; failed [A] CHECK_WARNING 3]).
  - reflexivity.
  - reflexivity.
Defined.

Lemma has_issues_false_when_all_success_witness :
  has_issues all_good A = Return false.
Proof.
  apply (has_issues_false_when_all_success all_good A).
  - apply list_elem_of_here.
  - intros r Hr Hne. each_member Hr.
    + by destruct Hne.
    + eexists. split; vm_compute; reflexivity.
Defined.

Lemma get_statistics_invariant_witness :
  (4 = Z.of_nat (length PKG_LIST) ∧
   0 ≤ 2 ≤ Z.of_nat (length [A; B; C]) ∧
   0 ≤ 1 ≤ Z.of_nat (length [A; B; C]) ∧
   0 = 0) ∧
  returns (get_statistics mixed [A; B; C]).
Proof.
  pose proof (get_statistics_invariant
                mixed [A; B; C]) as [Hret Htotal].
  split.
  - apply (Hret 4 2 1 0). vm_compute. reflexivity.
  - apply Htotal.
    assert (Hcomplete : ∀ p, p ∈ [A; B; C] → complete_for mixed p).
    { intros p Hp. split_and!.
      - exact Hp.
      - intros q Hq Hne. each_member Hp; each_member Hq;
          try (by destruct Hne); vm_compute; eexists; reflexivity.
      - each_member Hp; vm_compute; eexists; reflexivity. }
    apply Forall_forall. exact Hcomplete.
Defined.

(** C9 fails as stated: A and B are both in the indexed set, and yet
    [get_result(A, B)] raises, on the pair, and [has_deprecated_deps(A)]
    raises, on the install name. *)
Lemma lookups_raise_inside_indexed_set :
  A ∈ keys (_package_to_results pairless) ∧
  B ∈ keys (_package_to_results pairless) ∧
  get_result pairless A B = Raise (KeyError (PairKey {[A; B]})) ∧
  has_deprecated_deps pairless A = Raise (KeyError (NameKey "A")).
Proof.
  split_and!.
  - apply list_elem_of_here.
  - apply list_elem_of_further, list_elem_of_here.
  - vm_compute. reflexivity.
  - vm_compute. reflexivity.
Qed.

Lemma lookups_raise_iff_key_missing_witness :
  raises (get_result all_good A C) ↔
  A ∉ keys (_package_to_results all_good) ∨
  C ∉ keys (_package_to_results all_good).
Proof.
  pose proof (lookups_raise_iff_key_missing all_good A C)
    as (_ & _ & Hcomplete & _).
  apply Hcomplete.
  intros q1 q2 H1 H2 Hne. each_member H1; each_member H2;
    try (by destruct Hne); vm_compute; eexists; reflexivity.
Defined.

Lemma self_conflicted_package_never_blamed_witness :
  has_issues_body mixed B C ≠ Return true ∧
  (has_issues mixed B = Return true →
   ∃ q', q' ∈ keys (_package_to_results mixed) ∧ q' ≠ C ∧
         has_issues_body mixed B q' = Return true).
Proof.
  pose proof (self_conflicted_package_never_blamed mixed B C) as [Hblame _].
  apply (Hblame mixed_C_C).
  - vm_compute. reflexivity.
  - intros H. cbn in H.
    repeat (apply elem_of_cons in H as [H | H]; [discriminate H|]).
    by apply elem_of_nil in H.
Defined.

End Instances.

(** ** Further worked instances *)

Section FurtherInstances.

Import Examples.

Lemma get_result_self_flags_witness :
  ∃ res, get_result mixed A B = Return res ∧
         Forall (λ e, entry_self e = true) (self_compatibility_check res) ∧
         Forall (λ e, entry_self e = false) (pairwise_compatibility_check res).
Proof.
  eexists. split; [vm_compute; reflexivity|].
  refine (get_result_self_flags mixed A B _ _). vm_compute. reflexivity.
Defined.

Lemma get_result_lists_shape_witness :
  ∃ res, get_result mixed A B = Return res ∧
         (A = B → pairwise_compatibility_check res = [] ∧
                  self_compatibility_check res ≠ []) ∧
         (A ≠ B → pairwise_compatibility_check res ≠ []).
Proof.
  eexists. split; [vm_compute; reflexivity|].
  refine (get_result_lists_shape mixed A B _ _). vm_compute. reflexivity.
Defined.

Lemma success_entry_alone_witness :
  ∃ res, get_result all_good A B = Return res ∧
         (success_entry false ∈ self_compatibility_check res →
          A = B ∧ self_compatibility_check res = [SELF_SUCCESS]) ∧
         (success_entry false ∈ pairwise_compatibility_check res →
          pairwise_compatibility_check res = [success_entry false]).
Proof.
  eexists. split; [vm_compute; reflexivity|].
  refine (success_entry_alone all_good A B _ (success_entry false) _ _).
  - vm_compute. reflexivity.
  - reflexivity.
Defined.

Lemma get_result_self_entries_twice_witness :
  ∃ res, get_result mixed A A = Return res ∧
         self_compatibility_check res =
         map (failure_entry true)
           (List.filter reported
              [failed [A] INSTALL_ERROR 3; ok A; failed [A] CHECK_WARNING 3]) ++
         map (failure_entry true)
           (List.filter reported
              [failed [A] INSTALL_ERROR 3; ok A; failed [A] CHECK_WARNING 3]).
Proof.
  apply (get_result_self_entries_twice mixed A
           [failed [A] INSTALL_ERROR 3; ok A; failed [A] CHECK_WARNING 3]).
  - reflexivity.
  - vm_compute. discriminate.
Defined.

Lemma get_result_self_entries_order_witness :
  ∃ res, get_result mixed A C = Return res ∧
         self_compatibility_check res =
         [] ++
         map (failure_entry true)
           (List.filter reported
              [failed [A] INSTALL_ERROR 3; ok A; failed [A] CHECK_WARNING 3]) ++
         map (failure_entry true)
           (List.filter reported [failed [C] UNKNOWN_ERROR 3]).
Proof.
  eexists. split; [vm_compute; reflexivity|].
  refine (get_result_self_entries_order mixed A C
            [failed [A] INSTALL_ERROR 3; ok A; failed [A] CHECK_WARNING 3]
            [failed [C] UNKNOWN_ERROR 3] _ _ _ _ _).
  - discriminate.
  - reflexivity.
  - reflexivity.
  - vm_compute. reflexivity.
Defined.

Lemma status_type_tags_witness :
  ∃ res, get_result mixed A B = Return res ∧
    ∃ level tail,
      status_type res = level +:+ tail ∧
      (level = "self-" ∨ level = "pairwise-" ∧ A ≠ B) ∧
      (tail = "success" ∨ tail = "unknown" ∨
       ∃ s, s ≠ SUCCESS ∧ tail = lower (Status_.value s)).
Proof.
  eexists. split; [vm_compute; reflexivity|].
  refine (status_type_tags mixed A B _ _). vm_compute. reflexivity.
Defined.

Lemma success_status_iff_clean_witness :
  ∃ res, get_result all_good A B = Return res ∧
         status_type res ≠ "self-success" ∧
         (status_type res = "pairwise-success" ↔
          [ok A] ≠ [] ∧ [ok B; ok B] ≠ [] ∧
          [ {| packages := [A; B]; status := SUCCESS; details := None;
               python_major_version := 3 |} ] ≠ [] ∧
          List.filter reported [ok A] = [] ∧
          List.filter reported [ok B; ok B] = [] ∧
          List.filter reported
            [ {| packages := [A; B]; status := SUCCESS; details := None;
                 python_major_version := 3 |} ] = []).
Proof.
  eexists. split; [vm_compute; reflexivity|].
  refine (proj2 (success_status_iff_clean all_good A B _ _) _ _ _ _ _ _ _).
  - vm_compute. reflexivity.
  - discriminate.
  - reflexivity.
  - reflexivity.
  - vm_compute. reflexivity.
Defined.

Lemma pairwise_finding_overrides_witness :
  ∃ r12 r21,
    get_result mixed A B = Return r12 ∧
    get_result mixed B A = Return r21 ∧
    status_type r12 = status_type r21 ∧
    status_type r12 =
      match last (List.filter reported [failed [A; B] CHECK_WARNING 3]) with
      | Some pr => "pairwise-" +:+ lower (Status_.value (status pr))
      | None => "pairwise-unknown"
      end.
Proof.
  apply (pairwise_finding_overrides mixed A B
           [failed [A] INSTALL_ERROR 3; ok A; failed [A] CHECK_WARNING 3]
           [ok B]
           [failed [A; B] CHECK_WARNING 3]).
  - discriminate.
  - reflexivity.
  - reflexivity.
  - vm_compute. reflexivity.
  - right. vm_compute. discriminate.
Defined.

Lemma self_finding_survives_clean_pair_witness :
  ∃ res, get_result self_warned A B = Return res ∧
         pairwise_compatibility_check res = [success_entry false] ∧
         status_type res =
           match last (List.filter reported
                         ([failed [A] CHECK_WARNING 3] ++ [ok B])) with
           | Some pr => "self-" +:+ lower (Status_.value (status pr))
           | None => "self-unknown"
           end.
Proof.
  eexists. split; [vm_compute; reflexivity|].
  refine (self_finding_survives_clean_pair self_warned A B
            [failed [A] CHECK_WARNING 3] [ok B]
            [ {| packages := [A; B]; status := SUCCESS; details := None;
                 python_major_version := 3 |} ] _ _ _ _ _ _ _ _ _).
  - discriminate.
  - reflexivity.
  - reflexivity.
  - vm_compute. reflexivity.
  - discriminate.
  - reflexivity.
  - right. right. vm_compute. discriminate.
  - vm_compute. reflexivity.
Defined.

Lemma get_result_depends_on_findings_witness :
  get_result all_good A B = get_result all_good_more A B.
Proof.
  apply (get_result_depends_on_findings all_good all_good_more A B
           [ok A] [ok B; ok B]
           [ok A; ok A] [ok B; failed [B; TF] INSTALL_ERROR 2]).
  - reflexivity.
  - reflexivity.
  - reflexivity.
  - reflexivity.
  - split; reflexivity.
  - split; reflexivity.
  - intros _. vm_compute. split; reflexivity.
Defined.

Lemma has_issues_iff_witness :
  ∃ b, has_issues mixed A = Return b ∧
       (b = true ↔
        ∃ q lq lp,
          q ∈ keys (_package_to_results mixed) ∧ q ≠ A ∧
          dict_get (_package_to_results mixed) q = Some lq ∧
          _pairwise_to_results mixed !! ({[A; q]} : gset Package) = Some lp ∧
          lq ≠ [] ∧ List.filter reported lq = [] ∧
          (lp = [] ∨ List.filter reported lp ≠ [])).
Proof.
  apply (has_issues_iff mixed A).
  - apply list_elem_of_here.
  - intros q Hq Hne. each_member Hq; try (by destruct Hne);
      vm_compute; eexists; reflexivity.
Defined.

Lemma has_issues_unindexed_witness :
  (_package_to_results mixed = [] → has_issues mixed TF = Return false) ∧
  (_package_to_results mixed ≠ [] →
   has_issues mixed TF = Raise (KeyError (PackageKey TF))).
Proof.
  apply (has_issues_unindexed mixed TF).
  intros H. cbn in H.
  repeat (apply elem_of_cons in H as [H | H]; [discriminate H|]).
  by apply elem_of_nil in H.
Defined.

Lemma get_statistics_tallies_witness :
  2 = Z.of_nat (length (List.filter (λ p, is_True (has_issues mixed p)) [A; B; C])) ∧
  1 = Z.of_nat (length (List.filter (λ p, is_True (has_deprecated_deps mixed p))
                          [A; B; C])).
Proof.
  apply (get_statistics_tallies mixed [A; B; C] 4 2 1 0).
  vm_compute. reflexivity.
Defined.

Lemma get_statistics_first_failure_witness :
  get_statistics all_good [A; B; C; A] = Raise (KeyError (PackageKey C)).
Proof.
  apply (get_statistics_first_failure all_good [A; B] C [A]).
  - intros p Hp. each_member Hp; vm_compute; split; exact I.
  - left. vm_compute. reflexivity.
Defined.

Lemma get_statistics_app_witness :
  get_statistics mixed ([A] ++ [B; C]) = Return (4, 1 + 1, 1 + 0, 0).
Proof.
  apply (get_statistics_app mixed [A] [B; C] 4 1 1 0 4 1 0 0).
  - vm_compute. reflexivity.
  - vm_compute. reflexivity.
Defined.

Lemma get_statistics_Permutation_witness :
  get_statistics mixed [C; A; B] = Return (4, 2, 1, 0).
Proof.
  apply (get_statistics_Permutation mixed [A; B; C] [C; A; B]).
  - symmetry. apply (Permutation_cons_append [A; B] C).
  - vm_compute. reflexivity.
Defined.

Lemma get_deprecated_deps_invariant_witness :
  ("A", ["old-dep"]) ∈ [("A", []); ("B", []); ("A", ["old-dep"])] ∧
  true = truthy ["old-dep"].
Proof.
  apply (proj2 (get_deprecated_deps_invariant
                  [("A", []); ("B", []); ("A", ["old-dep"])] "A")).
  vm_compute. reflexivity.
Defined.

End FurtherInstances.
